(** * Shodan: new-bug reporter and closed-bug reporter

    A shallow embedding of
    [pkg/operator/reporters/new/new_controller.go] and
    [pkg/operator/reporters/closed/closed_reporter.go].

    The Go code talks to a bug tracker, a chat platform, a persistent
    key/value store, a clock, a mutex and a logger.  Every such call is an
    effect of type [ext]; a Go function is a tree of effects ([prog]) and
    is run against a [World] whose answers come from an [Oracle].  The
    trace of calls is kept in the world, so that statements such as "no
    update call is made" are statements about the trace. *)

From Stdlib Require Import ZArith String Ascii DecimalString DecimalPos Lia.
From stdpp Require Import base strings list gmap.

Local Open Scope string_scope.
Local Open Scope list_scope.
Local Open Scope Z_scope.

(* ===================================================================== *)
(** * Go prelude: the library functions the reporters use               *)
(* ===================================================================== *)

(** A Go [error] value, identified with its message; [option error] is a
    possibly-nil error. *)
Definition error : Type := string.

(** [strconv]: decimal printing and parsing of a 64-bit [int]. *)
Module strconv.

Definition MaxInt : Z := 2 ^ 63 - 1.
Definition MinInt : Z := - 2 ^ 63.

Definition inRange (n : Z) : bool := (MinInt <=? n) && (n <=? MaxInt).

(** [strconv.Itoa]: a minus sign for negatives, no leading zeros. *)
Definition Itoa (n : Z) : string := NilZero.string_of_int (Z.to_int n).

(** [strconv.Atoi]: an optional sign, then at least one decimal digit
    and nothing else; [None] stands for the [*NumError] Go returns on a
    syntax error or when the value does not fit an [int]. *)
Definition Atoi (s : string) : option Z :=
  let '(neg, digits) :=
    match s with
    | String "-" r => (true, r)
    | String "+" r => (false, r)
    | _ => (false, s)
    end in
  match digits with
  | "" => None
  | _ =>
    match NilEmpty.uint_of_string digits with
    | None => None
    | Some d =>
      let n := Z.of_uint d in
      let v := if neg : bool then - n else n in
      if inRange v then Some v else None
    end
  end.

End strconv.

(** [strings.Join]. *)
Module strings.

Fixpoint Join (elems : list string) (sep : string) : string :=
  match elems with
  | [] => ""
  | [a] => a
  | a :: rest => a +:+ sep +:+ Join rest sep
  end.

End strings.

(** [fmt.Sprintf], for the verbs the reporters use on user-visible text
    ([%s], [%v], [%d]), applied to arguments of the matching kind. *)
Module fmt.

Inductive Arg : Type :=
| ArgInt (n : Z)
| ArgStr (s : string)
| ArgErr (e : error)
| ArgNumError (input : string).

Definition formatArg (a : Arg) : string :=
  match a with
  | ArgInt n => strconv.Itoa n
  | ArgStr s => s
  | ArgErr e => e
  | ArgNumError input => "strconv.Atoi: parsing " +:+ input
  end.

Fixpoint Sprintf (format : string) (args : list Arg) : string :=
  match format with
  | "" => ""
  | String "%" (String verb rest) =>
    match args with
    | a :: args' => formatArg a +:+ Sprintf rest args'
    | [] => "%!" +:+ String verb "(MISSING)" +:+ Sprintf rest []
    end
  | String c rest => String c (Sprintf rest args)
  end.

End fmt.

(** [k8s.io/apimachinery/pkg/util/errors.NewAggregate]: nil for an empty
    list or a list of nils, otherwise one error made of the non-nil ones. *)
Module errorutil.

Definition NewAggregate (errlist : list (option error)) : option error :=
  match omap id errlist with
  | [] => None
  | [e] => Some e
  | errs => Some ("[" +:+ strings.Join errs ", " +:+ "]")
  end.

End errorutil.

(** [time]: instants and durations in nanoseconds. *)
Module time.

Definition Nanosecond : Z := 1.
Definition Second : Z := 1000000000 * Nanosecond.
Definition Minute : Z := 60 * Second.
Definition Hour : Z := 60 * Minute.

Definition Add (t d : Z) : Z := t + d.
Definition Before (t u : Z) : bool := t <? u.

End time.

(* ===================================================================== *)
(** * Data model                                                        *)
(* ===================================================================== *)

(** [github.com/eparis/bugzilla]: the fields of a bug, of a query and of
    an update that the reporters read or write. *)
Module bugzilla.

Record Bug : Type := {
  ID : Z;
  Status : string;
  AssignedTo : string;
  Resolution : string;
  Classification : string;
  Product : string;
  Component : list string;
  CreationTime : Z
}.

Record BugUpdate : Type := {
  updStatus : string;
  updAssignedTo : string
}.

Record AdvancedQuery : Type := {
  Field : string;
  Op : string;
  Value : string
}.

Record Query : Type := {
  qClassification : list string;
  qProduct : list string;
  qStatus : list string;
  qComponent : list string;
  Advanced : list AdvancedQuery;
  IncludeFields : list string
}.

End bugzilla.

(** [github.com/slack-go/slack]: message options and blocks. *)
Module slackgo.

Inductive TextBlockObject : Type :=
| NewTextBlockObject (elementType text : string) (emoji verbatim : bool).

Inductive BlockElement : Type :=
| NewButtonBlockElement (actionID value : string) (text : TextBlockObject)
                        (style : string).

Definition StylePrimary : string := "primary".

Inductive Block : Type :=
| NewSectionBlock (text : TextBlockObject)
| NewActionBlock (blockID : string) (elements : list BlockElement).

Inductive MsgOption : Type :=
| MsgOptionBlocks (blocks : list Block)
| MsgOptionPostEphemeral (userID : string)
| MsgOptionText (text : string) (escape : bool).

Record UserProfile : Type := { Email : string }.
Record User : Type := { userID : string }.
Record Container : Type := { ChannelID : string; MessageTs : string }.
Record BlockAction : Type := { actionValue : string }.

End slackgo.

(** [config.OperatorConfig]: the saved list the closed reporter reads. *)
Module config.

Record BugzillaList : Type := { Name : string; SharerID : string }.
Record BugzillaLists : Type := { Closed : BugzillaList }.
Record OperatorConfig : Type := { Lists : BugzillaLists }.

End config.

(** The registry entry of the new-bug reporter ([type message]). *)
Record message : Type := {
  createdAt : Z;
  ID : Z;
  channelID : string;
  ts : string
}.

(** The payload of the claim button ([type TakeValue]). *)
Record TakeValue : Type := {
  tvID : Z;
  OldAssignee : string
}.

(** The reporter itself: the fields [sync], [updateMessages] and
    [takeClicked] read.  The two mutable fields, [messagesLock] and
    [messagesToWatchAndUpdate], are shared between goroutines and live in
    the [World] below. *)
Record NewBugReporter : Type := {
  nbrConfig : config.OperatorConfig;
  components : list string;
  takeBlockerID : string
}.

(** Functions of this repository and of [encoding/json] whose code is
    outside the two files verified here. *)
Class Helpers : Type := {
  FormatBugMessage : bugzilla.Bug -> string;
  BugCountPlural : Z -> bool -> string;
  SlackEmailToBugzilla : config.OperatorConfig -> string -> string;
  json_Marshal : TakeValue -> string;
  json_Unmarshal : string -> TakeValue + error
}.

(* ===================================================================== *)
(** * Effects                                                           *)
(* ===================================================================== *)

Inductive Severity : Type := Info | Warning | Error.

(** One constructor per call the reporters make outside their own code;
    the index is the Go result, a possibly-nil pointer being an [option]
    and a possibly-nil error an [option error]. *)
Inductive ext : Type -> Type :=
(* controller.ControllerContext *)
| GetPersistentValue (key : string) : ext (string * option error)
| SetPersistentValue (key value : string) : ext (option error)
(* cache.BugzillaClient and bugzilla.Client *)
| Search (q : bugzilla.Query) : ext (list bugzilla.Bug * option error)
| GetCachedBug (id : Z) (lastChangedTime : string)
    : ext (option bugzilla.Bug * bool * option error)
| UpdateBug (id : Z) (update : bugzilla.BugUpdate) : ext (option error)
| BugList (name sharerID : string) : ext (list bugzilla.Bug * option error)
(* slack.ChannelClient *)
| PostMessageChannel (options : list slackgo.MsgOption)
    : ext (string * string * option error)
| MessageChannel (text : string) : ext (option error)
(* slackgo.Client *)
| GetUserProfile (userID : string) (includeLabels : bool)
    : ext (option slackgo.UserProfile * option error)
| UpdateMessage (channelID timestamp : string)
                (options : list slackgo.MsgOption)
    : ext (string * string * string * option error)
(* time *)
| Now : ext Z
| Sleep (d : Z) : ext unit
(* c.messagesLock *)
| Lock : ext unit
| Unlock : ext unit
(* c.messagesToWatchAndUpdate *)
| LoadMessages : ext (list message)
| StoreMessages (l : list message) : ext unit
(* klog and events.Recorder *)
| Klog (severity : Severity) (format : string) (args : list fmt.Arg)
    : ext unit
| RecorderWarningf (reason format : string) (args : list fmt.Arg)
    : ext unit.

(** A Go function body: it returns, makes a call and goes on with the
    answer, or panics. *)
Inductive prog (A : Type) : Type :=
| Ret (a : A)
| Do {X : Type} (c : ext X) (k : X -> prog A)
| Panic (v : string).

Arguments Ret {A} a.
Arguments Do {A X} c k.
Arguments Panic {A} v.

Fixpoint bind {A B : Type} (p : prog A) (f : A -> prog B) : prog B :=
  match p with
  | Ret a => f a
  | Do c k => Do c (fun x => bind (k x) f)
  | Panic v => Panic v
  end.

Definition call {X : Type} (c : ext X) : prog X := Do c Ret.

#[global] Instance prog_ret : MRet prog := @Ret.
#[global] Instance prog_bind : MBind prog := fun A B f p => bind p f.

(** [defer d] around a body: [d] runs when the body returns and when it
    panics, and a panic goes on after it. *)
Fixpoint defer {A : Type} (d : prog unit) (body : prog A) : prog A :=
  match body with
  | Ret a => d ;; Ret a
  | Do c k => Do c (fun x => defer d (k x))
  | Panic v => d ;; Panic v
  end.

(** A deferred function that calls [recover()]: a panic of the body ends
    there and [handler] runs on the recovered value. *)
Fixpoint recover (handler : string -> prog unit) (body : prog unit)
  : prog unit :=
  match body with
  | Ret a => Ret a
  | Do c k => Do c (fun x => recover handler (k x))
  | Panic v => handler v
  end.

(** [for _, x := range l { s = body s x }]. *)
Fixpoint forRange {A S : Type} (l : list A) (body : S -> A -> prog S) (s : S)
  : prog S :=
  match l with
  | [] => Ret s
  | x :: l' => s' ← body s x; forRange l' body s'
  end.

(** Dereferencing a pointer: nil panics. *)
Definition deref {A : Type} (p : option A) : prog A :=
  match p with
  | Some a => Ret a
  | None => Panic "runtime error: invalid memory address or nil pointer dereference"
  end.

(* ===================================================================== *)
(** * The world the reporters run in                                    *)
(* ===================================================================== *)

(** A call together with the answer it got. *)
Inductive event : Type :=
| Called {X : Type} (c : ext X) (answer : X).

(** The persistent store, the two shared fields of the reporter, and the
    calls made so far, oldest first. *)
Record World : Type := {
  store : gmap string string;
  messagesToWatchAndUpdate : list message;
  messagesLock : bool;
  trace : list event
}.

(** What the outside answers to the [n]-th call. For the persistent store
    only the error of the answer is used: the store itself is in the
    world. *)
Definition Oracle : Type := forall X : Type, ext X -> nat -> X.

Definition logged {X : Type} (c : ext X) (x : X) (w : World) : World :=
  {| store := store w;
     messagesToWatchAndUpdate := messagesToWatchAndUpdate w;
     messagesLock := messagesLock w;
     trace := trace w ++ [Called c x] |}.

Definition withStore (s : gmap string string) (w : World) : World :=
  {| store := s;
     messagesToWatchAndUpdate := messagesToWatchAndUpdate w;
     messagesLock := messagesLock w;
     trace := trace w |}.

Definition withMessages (l : list message) (w : World) : World :=
  {| store := store w;
     messagesToWatchAndUpdate := l;
     messagesLock := messagesLock w;
     trace := trace w |}.

Definition withLock (b : bool) (w : World) : World :=
  {| store := store w;
     messagesToWatchAndUpdate := messagesToWatchAndUpdate w;
     messagesLock := b;
     trace := trace w |}.

(** The answer to one call and the world after it. A read of the store
    fails when the oracle says so and otherwise returns the stored value,
    the empty string when the key is unset; a write fails when the oracle
    says so, leaving the store as it was, and otherwise stores the value.
    [Lock] is the lock once acquired: waiting for another goroutine to
    release it is not part of a sequential run. *)
Definition respond (o : Oracle) {X : Type} (c : ext X) (w : World)
  : X * World :=
  let n := length (trace w) in
  match c in ext X return X * World with
  | GetPersistentValue key =>
    let r := match snd (o _ (GetPersistentValue key) n) with
             | Some e => ("", Some e)
             | None => (default "" (store w !! key), None)
             end in
    (r, logged (GetPersistentValue key) r w)
  | SetPersistentValue key value =>
    match o _ (SetPersistentValue key value) n with
    | Some e => (Some e, logged (SetPersistentValue key value) (Some e) w)
    | None =>
      (None, logged (SetPersistentValue key value) None
               (withStore (<[key := value]> (store w)) w))
    end
  | Lock => (tt, logged Lock tt (withLock true w))
  | Unlock => (tt, logged Unlock tt (withLock false w))
  | LoadMessages =>
    (messagesToWatchAndUpdate w,
     logged LoadMessages (messagesToWatchAndUpdate w) w)
  | StoreMessages l => (tt, logged (StoreMessages l) tt (withMessages l w))
  | c' => let r := o _ c' n in (r, logged c' r w)
  end.

Inductive outcome (A : Type) : Type :=
| Returned (a : A)
| Panicked (v : string).

Arguments Returned {A} a.
Arguments Panicked {A} v.

Fixpoint run {A : Type} (o : Oracle) (p : prog A) (w : World)
  : outcome A * World :=
  match p with
  | Ret a => (Returned a, w)
  | Do c k => let '(x, w') := respond o c w in run o (k x) w'
  | Panic v => (Panicked v, w)
  end.

(* ===================================================================== *)
(** * pkg/operator/reporters/closed                                     *)
(* ===================================================================== *)

Module closed.
Section Code.
Context `{Helpers}.

Record BlockersReporter : Type := { reporterConfig : config.OperatorConfig }.

Definition newline : string := String (ascii_of_nat 10) "".

(** The body of [for _, bug := range closedBugs]: the bug is appended
    to the list kept under its resolution. *)
Definition addToResolution (m : gmap string (list bugzilla.Bug))
    (bug : bugzilla.Bug) : gmap string (list bugzilla.Bug) :=
  <[bugzilla.Resolution bug :=
      default [] (m !! bugzilla.Resolution bug) ++ [bug]]> m.

(** One line of the report, for one resolution and its bugs. *)
Definition resolutionLine (entry : string * list bugzilla.Bug) : string :=
  let '(resolution, bugs) := entry in
  let ids :=
    (fun b => fmt.Sprintf
                "<https://bugzilla.redhat.com/show_bug.cgi?id=%d|#%d>"
                [fmt.ArgInt (bugzilla.ID b); fmt.ArgInt (bugzilla.ID b)])
      <$> bugs in
  let p := if (Z.of_nat (length bugs) =? 1) then "bug" else "bugs" in
  fmt.Sprintf "> %d %s closed as _%s_ (%s)"
    [fmt.ArgInt (Z.of_nat (length bugs)); fmt.ArgStr p;
     fmt.ArgStr resolution; fmt.ArgStr (strings.Join ids ",")].

(** [Report]. Go ranges over a map in an order it does not fix; here
    the order is that of [map_to_list]. *)
Definition Report (cfg : config.OperatorConfig)
  : prog (string * option error) :=
  '(closedBugs, err) ← call (BugList (config.Name (config.Closed (config.Lists cfg)))
                                    (config.SharerID (config.Closed (config.Lists cfg))));
  match err with
  | Some e =>
    call (RecorderWarningf "BuglistFailed" e []);;
    mret ("", Some e)
  | None =>
    let resolutionMap := fold_left addToResolution closedBugs ∅ in
    let message := resolutionLine <$> map_to_list resolutionMap in
    if Z.of_nat (length closedBugs) =? 0 then mret ("", None)
    else
      let report :=
        fmt.Sprintf ("*%s Closed in the last 24h*:" +:+ newline +:+ "%s" +:+ newline)
          [fmt.ArgStr (BugCountPlural (Z.of_nat (length closedBugs)) true);
           fmt.ArgStr (strings.Join message newline)] in
      mret (report, None)
  end.

(** [BlockersReporter.sync]. *)
Definition sync (c : BlockersReporter) : prog (option error) :=
  '(report, err) ← Report (reporterConfig c);
  match err with
  | Some e => mret (Some e)
  | None =>
    if Z.of_nat (String.length report) =? 0 then mret None
    else
      err ← call (MessageChannel report);
      match err with
      | Some e =>
        call (RecorderWarningf "DeliveryFailed"
                "Failed to deliver closed bug counts: %v" [fmt.ArgErr e]);;
        mret (Some e)
      | None => mret None
      end
  end.

End Code.
End closed.

(* ===================================================================== *)
(** * pkg/operator/reporters/new                                        *)
(* ===================================================================== *)

Module new.
Section Code.
Context `{Helpers}.

(** ** The scanner: [getNewBugs] *)

Definition getNewBugsQuery (components : list string) (lastID : Z)
  : bugzilla.Query :=
  let aq := {| bugzilla.Field := "bug_id";
               bugzilla.Op := "greaterthan";
               bugzilla.Value := strconv.Itoa lastID |} in
  let aq := if lastID =? 0
            then {| bugzilla.Field := "creation_ts";
                    bugzilla.Op := "greaterthaneq";
                    bugzilla.Value := "-168h" |}
            else aq in
  {| bugzilla.qClassification := ["Red Hat"];
     bugzilla.qProduct := ["OpenShift Container Platform"];
     bugzilla.qStatus := ["NEW"];
     bugzilla.qComponent := components;
     bugzilla.Advanced := [aq];
     bugzilla.IncludeFields :=
       ["id"; "assigned_to"; "status"; "severity"; "priority";
        "component"; "summary"; "cf_cust_facing"; "target_release";
        "last_change_time"; "reporter"] |}.

Definition getNewBugs (components : list string) (lastID : Z)
  : prog (list bugzilla.Bug * option error) :=
  call (Search (getNewBugsQuery components lastID)).

(** ** The sync cycle: [NewBugReporter.sync] *)

Definition stateKey (c : NewBugReporter) : string :=
  "new-bug-reporter.state-" +:+ strings.Join (components c) "-".

(** The notification of one bug: its text and the claim button. *)
Definition notification (c : NewBugReporter) (b : bugzilla.Bug)
  : list slackgo.MsgOption :=
  let value := json_Marshal {| tvID := bugzilla.ID b;
                               OldAssignee := bugzilla.AssignedTo b |} in
  [slackgo.MsgOptionBlocks
     [slackgo.NewSectionBlock
        (slackgo.NewTextBlockObject "mrkdwn" (FormatBugMessage b) false false);
      slackgo.NewActionBlock (takeBlockerID c)
        [slackgo.NewButtonBlockElement "btn" value
           (slackgo.NewTextBlockObject "plain_text" "Take this Bug" true false)
           slackgo.StylePrimary]]].

(** The body of [for _, b := range newBugs], on the variable [lastID].
    The [err] of the post is local to the body: a failed post skips the
    registration and nothing else. *)
Definition syncPost (c : NewBugReporter) (lastID : Z) (b : bugzilla.Bug)
  : prog Z :=
  let lastID := if bugzilla.ID b >? lastID then bugzilla.ID b else lastID in
  '(ch, ts, err) ← call (PostMessageChannel (notification c b));
  match err with
  | None =>
    now ← call Now;
    ms ← call LoadMessages;
    call (StoreMessages
            (ms ++ [{| createdAt := now; ID := bugzilla.ID b;
                       channelID := ch; ts := ts |}]));;
    mret lastID
  | Some _ => mret lastID
  end.

(** From the scan to the [return] statements: the named result [err]
    and the final value of [lastID], which the deferred function reads. *)
Definition syncBody (c : NewBugReporter) (lastID : Z)
  : prog (option error * Z) :=
  '(newBugs, err) ← getNewBugs (components c) lastID;
  match err with
  | Some e =>
    call (RecorderWarningf "BuglistFailed" e []);;
    mret (Some e, lastID)
  | None =>
    call Lock;;
    defer (call Unlock)
      (let errs : list (option error) := [] in
       lastID ← forRange newBugs (syncPost c) lastID;
       mret (errorutil.NewAggregate errs, lastID))
  end.

(** The cursor a stored string stands for: 0 when it is unset or does
    not parse (the warning of the second case is in [readCursor]). *)
Definition cursorOf (s : string) : Z :=
  if String.eqb s "" then 0
  else match strconv.Atoi s with
       | Some n => n
       | None => 0
       end.

Definition readCursor (stateKey s : string) : prog Z :=
  if String.eqb s "" then mret 0
  else match strconv.Atoi s with
       | Some n => mret n
       | None =>
         call (Klog Warning "Cannot parse state value for %s: %v"
                 [fmt.ArgStr stateKey; fmt.ArgNumError s]);;
         mret 0
       end.

Definition sync (c : NewBugReporter) : prog (option error) :=
  '(s, err) ← call (GetPersistentValue (stateKey c));
  match err with
  | Some e => mret (Some e)
  | None =>
    lastID ← readCursor (stateKey c) s;
    '(err, lastID) ← syncBody c lastID;
    (* the deferred function *)
    persistErr ← call (SetPersistentValue (stateKey c) (strconv.Itoa lastID));
    match persistErr with
    | Some pe => match err with
                 | None => mret (Some pe)
                 | Some _ => mret err
                 end
    | None => mret err
    end
  end.

(** ** The reconciliation loop: [NewBugReporter.updateMessages] *)

Definition tooOld (now : Z) (m : message) : bool :=
  time.Before (createdAt m) (time.Add now (- time.Hour * 24 * 30)).

(** The body of the first loop, on [notTooOldMessages]. *)
Definition dropOld (notTooOldMessages : list message) (m : message)
  : prog (list message) :=
  now ← call Now;
  if tooOld now m then mret notTooOldMessages
  else mret (notTooOldMessages ++ [m]).

Definition assignedText (b : bugzilla.Bug) (assignee : string) : string :=
  fmt.Sprintf "%s – assigned to %s"
    [fmt.ArgStr (FormatBugMessage b); fmt.ArgStr assignee].

Definition textBlocks (text : string) : list slackgo.MsgOption :=
  [slackgo.MsgOptionBlocks
     [slackgo.NewSectionBlock
        (slackgo.NewTextBlockObject "mrkdwn" text false false)]].

(** The body of the second loop, on [messagesToWatch]. *)
Definition reconcile (messagesToWatch : list message) (m : message)
  : prog (list message) :=
  '(b, _, err) ← call (GetCachedBug (ID m) "");
  match err with
  | Some e =>
    call (Klog Error "failed to get bug %d: %v"
            [fmt.ArgInt (ID m); fmt.ArgErr e]);;
    mret (messagesToWatch ++ [m])
  | None =>
    b ← deref b;
    if String.eqb (bugzilla.Status b) "NEW"
    then mret (messagesToWatch ++ [m])
    else
      let text := assignedText b (bugzilla.AssignedTo b) in
      call (Klog Info "Updating message to: %v" [fmt.ArgStr text]);;
      '(_, _, _, err) ← call (UpdateMessage (channelID m) (ts m) (textBlocks text));
      match err with
      | Some e =>
        call (Klog Error "Failed to update message: %v" [fmt.ArgErr e]);;
        mret messagesToWatch
      | None => mret messagesToWatch
      end
  end.

(** One turn of [for { func() { ... }() }]. *)
Definition updateMessagesPass : prog unit :=
  recover (fun err => call (Klog Error "%v" [fmt.ArgStr err]))
    (call Lock;;
     defer (call Unlock)
       (ms ← call LoadMessages;
        notTooOldMessages ← forRange ms dropOld [];
        call (StoreMessages notTooOldMessages);;
        ms ← call LoadMessages;
        messagesToWatch ← forRange ms reconcile [];
        call (StoreMessages messagesToWatch);;
        call (Sleep time.Hour))).

(** The first [passes] turns of the loop, which has no exit. *)
Fixpoint updateMessages (passes : nat) : prog unit :=
  match passes with
  | O => mret tt
  | S n => updateMessagesPass;; updateMessages n
  end.

(** ** The claim handler: [NewBugReporter.takeClicked] *)

Definition bugURL : string := "https://bugzilla.redhat.com/show_bug.cgi?id=".

(** [slackClient.PostMessageChannel(MsgOptionPostEphemeral(user.ID),
    MsgOptionText(text, false))]. *)
Definition ephemeral (user : slackgo.User) (text : string)
  : list slackgo.MsgOption :=
  [slackgo.MsgOptionPostEphemeral (slackgo.userID user);
   slackgo.MsgOptionText text false].

Definition tookText (bzEmail : string) (b : bugzilla.Bug) : string :=
  fmt.Sprintf "%s took: %s"
    [fmt.ArgStr bzEmail; fmt.ArgStr (FormatBugMessage b)].

(** The goroutine [takeClicked] starts once the payload is decoded. *)
Definition takeClickedTask (c : NewBugReporter)
    (message : slackgo.Container) (user : slackgo.User) (value : TakeValue)
  : prog unit :=
  let uid := slackgo.userID user in
  let id := tvID value in
  '(profile, err) ← call (GetUserProfile uid false);
  match err with
  | Some e =>
    call (PostMessageChannel
            (ephemeral user
               (fmt.Sprintf "Failed to get user profile of %v: %v"
                  [fmt.ArgStr uid; fmt.ArgErr e])));;
    call (Klog Error "Failed to get user profile of %v: %v"
            [fmt.ArgStr uid; fmt.ArgErr e])
  | None =>
    profile ← deref profile;
    let bzEmail := SlackEmailToBugzilla (nbrConfig c) (slackgo.Email profile) in
    '(b, _, err) ← call (GetCachedBug id "");
    match err with
    | Some e =>
      call (PostMessageChannel
              (ephemeral user
                 (fmt.Sprintf ("Failed to get " +:+ bugURL +:+ "%v: %v")
                    [fmt.ArgInt id; fmt.ArgErr e])));;
      call (Klog Error "Failed to get bug #%v: %v"
              [fmt.ArgInt id; fmt.ArgErr e])
    | None =>
      b ← deref b;
      if negb (String.eqb (bugzilla.Status b) "NEW") then
        call (PostMessageChannel
                (ephemeral user
                   (fmt.Sprintf ("Bug " +:+ bugURL +:+ "%v has been moved already to %s")
                      [fmt.ArgInt id; fmt.ArgStr (bugzilla.Status b)])));;
        call (Klog Info "Bug #%v not NEW anymore, but %q"
                [fmt.ArgInt id; fmt.ArgStr (bugzilla.Status b)])
      else if negb (String.eqb (bugzilla.AssignedTo b) "")
              && negb (String.eqb (bugzilla.AssignedTo b) (OldAssignee value)) then
        call (PostMessageChannel
                (ephemeral user
                   (fmt.Sprintf ("Bug " +:+ bugURL +:+ "%v has already been assigned to %s")
                      [fmt.ArgInt id; fmt.ArgStr (OldAssignee value)])));;
        call (Klog Info "Bug #%v changed assigned, expected %q, got %q"
                [fmt.ArgInt id; fmt.ArgStr (OldAssignee value);
                 fmt.ArgStr (bugzilla.AssignedTo b)])
      else
        err ← call (UpdateBug id {| bugzilla.updStatus := "ASSIGNED";
                                    bugzilla.updAssignedTo := bzEmail |});
        match err with
        | Some e =>
          call (PostMessageChannel
                  (ephemeral user
                     (fmt.Sprintf ("Failed to assign " +:+ bugURL +:+ "%v to %s: %v")
                        [fmt.ArgInt id; fmt.ArgStr bzEmail; fmt.ArgErr e])));;
          call (Klog Error "Failed to assign bug #%v to %s: %v"
                  [fmt.ArgInt id; fmt.ArgStr bzEmail; fmt.ArgErr e])
        | None =>
          (* [b] is assigned again here *)
          '(b, _, err) ← call (GetCachedBug id "");
          match err with
          | Some e =>
            b ← deref b;
            call (MessageChannel (tookText bzEmail b));;
            call (Klog Error "Failed to get updated bug #%d: %v"
                    [fmt.ArgInt id; fmt.ArgErr e])
          | None =>
            b ← deref b;
            let text := assignedText b bzEmail in
            call (Klog Info "Updating message to: %v" [fmt.ArgStr text]);;
            '(_, _, _, err) ← call (UpdateMessage (slackgo.ChannelID message)
                                      (slackgo.MessageTs message)
                                      (textBlocks text));
            match err with
            | Some e =>
              call (MessageChannel (tookText bzEmail b));;
              call (Klog Error "Failed to update message: %v" [fmt.ArgErr e])
            | None => mret tt
            end
          end
        end
    end
  end.

(** [takeClicked]: the payload is decoded on the spot, the rest runs in
    a goroutine of its own. *)
Definition takeClicked (c : NewBugReporter) (message : slackgo.Container)
    (user : slackgo.User) (action : slackgo.BlockAction) : prog unit :=
  match json_Unmarshal (slackgo.actionValue action) with
  | inr e =>
    call (Klog Warning "cannot unmarshal value %q: %v"
            [fmt.ArgStr (slackgo.actionValue action); fmt.ArgErr e])
  | inl value => takeClickedTask c message user value
  end.

(** ** The weekly report: [Report] *)

Definition reportHeader : list string :=
  ["New bugs of the last week (excluding those already in a different state):";
   ""].

Definition reportItem (b : bugzilla.Bug) : string :=
  fmt.Sprintf "> %s" [fmt.ArgStr (FormatBugMessage b)].

Definition reportMore (total : Z) : string :=
  fmt.Sprintf " ... and %d more" [fmt.ArgInt (total - 20)].

(** [for i, b := range newBugs], from index [i] on, on the variable
    [lines]; [total] is [len(newBugs)]. The loop breaks after the line it
    adds when [i > 20]. *)
Fixpoint reportLoop (total i : Z) (newBugs : list bugzilla.Bug)
    (lines : list string) : list string :=
  match newBugs with
  | [] => lines
  | b :: rest =>
    let lines := lines ++ [reportItem b] in
    if i >? 20 then lines ++ [reportMore total]
    else reportLoop total (i + 1) rest lines
  end.

Definition Report (components : list string) : prog (string * option error) :=
  '(newBugs, err) ← getNewBugs components 0;
  match err with
  | Some e => mret ("", Some e)
  | None =>
    let lines := reportLoop (Z.of_nat (length newBugs)) 0 newBugs reportHeader in
    mret (strings.Join lines (String (ascii_of_nat 10) ""), None)
  end.

End Code.
End new.

(* ===================================================================== *)
(** * The tracker's side of a query                                     *)
(* ===================================================================== *)

Module tracker.









Definition Day : Z := 24 * time.Hour.


End tracker.

(* ===================================================================== *)
(** * Reading a trace                                                   *)
(* ===================================================================== *)

(** The calls a run adds to the trace of the world it starts from. *)
Definition callsOf {A : Type} (o : Oracle) (p : prog A) (w : World)
  : list event :=
  drop (length (trace w)) (trace (run o p w).2).

Definition asCursorRead (e : event) : option (string * option error) :=
  match e with
  | Called c x =>
    match c in ext X return X -> option (string * option error) with
    | GetPersistentValue key => fun r => Some (key, r.2)
    | _ => fun _ => None
    end x
  end.

Definition asCursorWrite (e : event) : option (string * string * option error) :=
  match e with
  | Called c x =>
    match c in ext X return X -> option (string * string * option error) with
    | SetPersistentValue key value => fun r => Some (key, value, r)
    | _ => fun _ => None
    end x
  end.

Definition asScan (e : event) : option (list bugzilla.Bug * option error) :=
  match e with
  | Called c x =>
    match c in ext X return X -> option (list bugzilla.Bug * option error) with
    | Search _ => fun r => Some r
    | _ => fun _ => None
    end x
  end.

Definition asPost (e : event) : option (list slackgo.MsgOption * option error) :=
  match e with
  | Called c x =>
    match c in ext X return X -> option (list slackgo.MsgOption * option error) with
    | PostMessageChannel options => fun r => Some (options, r.2)
    | _ => fun _ => None
    end x
  end.

Definition asMessageChannel (e : event) : option string :=
  match e with
  | Called (MessageChannel text) _ => Some text
  | _ => None
  end.

Definition asUpdateBug (e : event) : option (Z * bugzilla.BugUpdate) :=
  match e with
  | Called (UpdateBug id update) _ => Some (id, update)
  | _ => None
  end.

Definition asUpdateMessage (e : event) : option (string * string) :=
  match e with
  | Called (UpdateMessage ch ts _) _ => Some (ch, ts)
  | _ => None
  end.

(** A failure report: a recorder warning, or a log line above [Info]. *)
Definition asReport (e : event) : option string :=
  match e with
  | Called (RecorderWarningf reason _ _) _ => Some reason
  | Called (Klog Warning format _) _ => Some format
  | Called (Klog Error format _) _ => Some format
  | _ => None
  end.

Definition cursorReads (tr : list event) := omap asCursorRead tr.
Definition cursorWrites (tr : list event) := omap asCursorWrite tr.
Definition scans (tr : list event) := omap asScan tr.
Definition posts (tr : list event) := omap asPost tr.
Definition messageChannels (tr : list event) := omap asMessageChannel tr.
Definition updateBugs (tr : list event) := omap asUpdateBug tr.
Definition updateMessageCalls (tr : list event) := omap asUpdateMessage tr.
Definition reports (tr : list event) := omap asReport tr.

(** The text of the ephemeral messages among the posts. *)
Definition ephemeralTexts (tr : list event) : list string :=
  omap (fun p => match p.1 with
                 | [slackgo.MsgOptionPostEphemeral _; slackgo.MsgOptionText text _] =>
                   Some text
                 | _ => None
                 end) (posts tr).

(** Whether [messagesLock] is held at each [time.Sleep] of a trace, given
    whether it is held when the trace starts. *)
Fixpoint heldAtSleep (held : bool) (tr : list event) : list bool :=
  match tr with
  | [] => []
  | Called Lock _ :: tr' => heldAtSleep true tr'
  | Called Unlock _ :: tr' => heldAtSleep false tr'
  | Called (Sleep _) _ :: tr' => held :: heldAtSleep held tr'
  | _ :: tr' => heldAtSleep held tr'
  end.

(** The persisted cursor of a reporter, as the next cycle will read it. *)
Definition cursor (c : NewBugReporter) (w : World) : Z :=
  new.cursorOf (default "" (store w !! new.stateKey c)).

(** The largest id among the items of a scan, from [lastID] on. *)
Definition maxID (lastID : Z) (bugs : list bugzilla.Bug) : Z :=
  fold_left (fun acc b => Z.max acc (bugzilla.ID b)) bugs lastID.

(** The world after [n] sync cycles in a row. *)
Fixpoint cycles `{Helpers} (o : Oracle) (c : NewBugReporter) (n : nat)
    (w : World) : World :=
  match n with
  | O => w
  | S n' => (run o (new.sync c) (cycles o c n' w)).2
  end.

(** The calls of the posting loop of a cycle. *)
Definition inLoop (e : event) : bool :=
  match e with
  | Called (PostMessageChannel _) _ => true
  | Called Now _ => true
  | Called LoadMessages _ => true
  | Called (StoreMessages _) _ => true
  | _ => false
  end.

(** Neither a read or write of the store nor a scan. *)
Definition aside (e : event) : bool :=
  match e with
  | Called (GetPersistentValue _) _ => false
  | Called (SetPersistentValue _ _) _ => false
  | Called (Search _) _ => false
  | _ => true
  end.

(** Go's [int]: every item the tracker returns has an id that fits. *)
Definition goInts (o : Oracle) : Prop :=
  forall (q : bugzilla.Query) (n : nat) (b : bugzilla.Bug),
    In b (o _ (Search q) n).1 -> strconv.inRange (bugzilla.ID b) = true.

(** [M] is the largest id among [bugs]. *)
Definition isMaxID (M : Z) (bugs : list bugzilla.Bug) : Prop :=
  (exists b, In b bugs /\ bugzilla.ID b = M)
  /\ (forall b, In b bugs -> bugzilla.ID b <= M).

(** The calls a pass ends with: it stores the entries it keeps, sleeps
    and then unlocks; or, after a fault, unlocks and logs the fault. *)
Definition passEnd (r : outcome (list message)) : list event :=
  match r with
  | Returned messagesToWatch =>
    [Called (StoreMessages messagesToWatch) tt;
     Called (Sleep time.Hour) tt;
     Called Unlock tt]
  | Panicked v =>
    [Called Unlock tt; Called (Klog Error "%v" [fmt.ArgStr v]) tt]
  end.

(** A world after more calls that change nothing but the trace. *)
Definition extended (evs : list event) (w : World) : World :=
  {| store := store w;
     messagesToWatchAndUpdate := messagesToWatchAndUpdate w;
     messagesLock := messagesLock w;
     trace := trace w ++ evs |}.

(** The calls of the two loops of a reconciliation pass. *)
Definition inPass (e : event) : bool :=
  match e with
  | Called Now _ => true
  | Called (GetCachedBug _ _) _ => true
  | Called (UpdateMessage _ _ _) _ => true
  | Called (Klog _ _ _) _ => true
  | _ => false
  end.

(** The status a fetch brought back, if it brought an item back. *)
Definition fetchedStatus (r : option bugzilla.Bug * bool * option error)
  : option string :=
  match r with
  | (Some b, _, None) => Some (bugzilla.Status b)
  | _ => None
  end.

(** The fetched status is no longer ["NEW"]. *)
Definition leftNew (r : option bugzilla.Bug * bool * option error) : bool :=
  match fetchedStatus r with
  | Some status => negb (String.eqb status "NEW")
  | None => false
  end.

(** A fetch that reports no error brings an item back. *)
Definition fetchesItems (fetch : Z -> option bugzilla.Bug * bool * option error)
  : Prop :=
  forall id, (fetch id).2 = None -> (fetch id).1.1 <> None.

(** During a pass the clock reads [now] and the tracker answers [fetch]. *)
Definition steady (o : Oracle) (now : Z)
    (fetch : Z -> option bugzilla.Bug * bool * option error) : Prop :=
  (forall n, o _ Now n = now)
  /\ (forall n id lastChanged, o _ (GetCachedBug id lastChanged) n = fetch id).


(** ** More readings of a trace *)

(** A post, with what was posted and the whole answer. *)
Definition asPostCall (e : event)
  : option (list slackgo.MsgOption * (string * string * option error)) :=
  match e with
  | Called c x =>
    match c in ext X
          return X -> option (list slackgo.MsgOption * (string * string * option error))
    with
    | PostMessageChannel options => fun r => Some (options, r)
    | _ => fun _ => None
    end x
  end.

Definition asScanQuery (e : event) : option bugzilla.Query :=
  match e with
  | Called (Search q) _ => Some q
  | _ => None
  end.

(** A fetch, with the id asked for and the answer. *)
Definition asFetch (e : event)
  : option (Z * (option bugzilla.Bug * bool * option error)) :=
  match e with
  | Called c x =>
    match c in ext X
          return X -> option (Z * (option bugzilla.Bug * bool * option error))
    with
    | GetCachedBug id _ => fun r => Some (id, r)
    | _ => fun _ => None
    end x
  end.

Definition asProfile (e : event)
  : option (string * (option slackgo.UserProfile * option error)) :=
  match e with
  | Called c x =>
    match c in ext X
          return X -> option (string * (option slackgo.UserProfile * option error))
    with
    | GetUserProfile userID _ => fun r => Some (userID, r)
    | _ => fun _ => None
    end x
  end.

Definition asUpdateAnswer (e : event) : option (option error) :=
  match e with
  | Called c x =>
    match c in ext X return X -> option (option error) with
    | UpdateBug _ _ => fun r => Some r
    | _ => fun _ => None
    end x
  end.

(** A chat edit: the message edited, the new content and the error. *)
Definition asEdit (e : event)
  : option (string * string * list slackgo.MsgOption * option error) :=
  match e with
  | Called c x =>
    match c in ext X
          return X -> option (string * string * list slackgo.MsgOption * option error)
    with
    | UpdateMessage ch ts options => fun r => Some (ch, ts, options, r.2)
    | _ => fun _ => None
    end x
  end.

Definition postCalls (tr : list event) := omap asPostCall tr.
Definition scanQueries (tr : list event) := omap asScanQuery tr.
Definition fetches (tr : list event) := omap asFetch tr.
Definition profiles (tr : list event) := omap asProfile tr.
Definition updateAnswers (tr : list event) := omap asUpdateAnswer tr.
Definition edits (tr : list event) := omap asEdit tr.

(** The users the ephemeral messages among the posts went to. *)
Definition ephemeralRecipients (tr : list event) : list string :=
  omap (fun p => match p.1 with
                 | [slackgo.MsgOptionPostEphemeral uid; slackgo.MsgOptionText _ _] =>
                   Some uid
                 | _ => None
                 end) (posts tr).

(** Whether every read and write of [messagesToWatchAndUpdate] in a trace
    happens with [messagesLock] held, given whether it is held when the
    trace starts. *)
Fixpoint guarded (held : bool) (tr : list event) : bool :=
  match tr with
  | [] => true
  | Called Lock _ :: tr' => guarded true tr'
  | Called Unlock _ :: tr' => guarded false tr'
  | Called LoadMessages _ :: tr' => held && guarded held tr'
  | Called (StoreMessages _) _ :: tr' => held && guarded held tr'
  | _ :: tr' => guarded held tr'
  end.

(** What identifies a registry entry apart from its time of creation. *)
Definition entryKey (m : message) : Z * string * string :=
  (ID m, channelID m, ts m).

(** The entries a cycle registers: one for each item whose post went
    through, under the channel and timestamp the post returned. *)
Definition registered (bugs : list bugzilla.Bug)
    (answers : list (string * string * option error))
  : list (Z * string * string) :=
  omap (fun p : bugzilla.Bug * (string * string * option error) =>
          match p.2.2 with
          | None => Some (bugzilla.ID p.1, p.2.1.1, p.2.1.2)
          | Some _ => None
          end)
       (zip bugs answers).

(** The first error of a list of possibly-nil errors. *)
Fixpoint firstError (errs : list (option error)) : option error :=
  match errs with
  | [] => None
  | Some e :: _ => Some e
  | None :: rest => firstError rest
  end.

(** The warning a cycle logs when the stored cursor is not empty and does
    not parse. *)
Definition parseWarning (stateKey s : string) : list event :=
  if String.eqb s "" then []
  else match strconv.Atoi s with
       | Some _ => []
       | None =>
         [Called (Klog Warning "Cannot parse state value for %s: %v"
                    [fmt.ArgStr stateKey; fmt.ArgNumError s]) tt]
       end.

(** What a cycle does between its scan and its write of the cursor: it
    reports a failed scan, or takes the lock, posts and releases it. *)
Definition afterScan (serr : option error) (loop : list event) : list event :=
  match serr with
  | Some e => [Called (RecorderWarningf "BuglistFailed" e []) tt]
  | None => [Called Lock tt] ++ loop ++ [Called Unlock tt]
  end.

(** A reading of the clock. *)
Definition isNow (e : event) : bool :=
  match e with
  | Called Now _ => true
  | _ => false
  end.

(** A fetch that brings back neither an item nor an error. *)
Definition faulty (fetch : Z -> option bugzilla.Bug * bool * option error)
    (m : message) : bool :=
  match fetch (ID m) with
  | (None, _, None) => true
  | _ => false
  end.

(** What the second loop of a pass does with entry [m] when its fetch
    answers [a]: it keeps the entry, drops it, or panics on a nil item. *)
Definition reconciled (a : option bugzilla.Bug * bool * option error)
    (messagesToWatch : list message) (m : message)
  : outcome (list message) :=
  match a with
  | (_, _, Some _) => Returned (messagesToWatch ++ [m])
  | (Some b, _, None) =>
    if String.eqb (bugzilla.Status b) "NEW"
    then Returned (messagesToWatch ++ [m])
    else Returned messagesToWatch
  | (None, _, None) =>
    Panicked "runtime error: invalid memory address or nil pointer dereference"
  end.

(** The chat edit the second loop makes for entry [m] when its fetch
    answers [a]: one when the item was fetched and is no longer "NEW",
    showing the item and its assignee. *)
Definition editOf `{Helpers} (a : option bugzilla.Bug * bool * option error)
    (m : message) : option (string * string * list slackgo.MsgOption) :=
  match a with
  | (Some b, _, None) =>
    if String.eqb (bugzilla.Status b) "NEW" then None
    else Some (channelID m, ts m,
               new.textBlocks (new.assignedText b (bugzilla.AssignedTo b)))
  | _ => None
  end.

(** The chat edits of a pass over [ms] while the tracker answers [fetch]. *)
Definition editsOf `{Helpers}
    (fetch : Z -> option bugzilla.Bug * bool * option error)
    (ms : list message) : list (string * string * list slackgo.MsgOption) :=
  omap (fun m => editOf (fetch (ID m)) m) ms.

(** A call on what the goroutines of the reporter share: the persistent
    store, the lock and the registry. *)
Definition isShared (e : event) : bool :=
  match e with
  | Called (GetPersistentValue _) _ => true
  | Called (SetPersistentValue _ _) _ => true
  | Called Lock _ => true
  | Called Unlock _ => true
  | Called LoadMessages _ => true
  | Called (StoreMessages _) _ => true
  | _ => false
  end.

(* ===================================================================== *)
(** * Sample helpers, oracles and worlds                                *)
(* ===================================================================== *)

Module sample.

(** A payload codec of the shape ["<id>,<assignee>"]. *)
Fixpoint splitComma (s : string) : option (string * string) :=
  match s with
  | "" => None
  | String "," r => Some ("", r)
  | String a r => (fun p => (String a p.1, p.2)) <$> splitComma r
  end.

Definition helpers : Helpers := {|
  FormatBugMessage b := "#" +:+ strconv.Itoa (bugzilla.ID b);
  BugCountPlural n _ := strconv.Itoa n +:+ " bugs";
  SlackEmailToBugzilla _ email := email;
  json_Marshal v := strconv.Itoa (tvID v) +:+ "," +:+ OldAssignee v;
  json_Unmarshal s :=
    match splitComma s with
    | Some (i, a) =>
      match strconv.Atoi i with
      | Some n => inl {| tvID := n; OldAssignee := a |}
      | None => inr "invalid character"
      end
    | None => inr "unexpected end of JSON input"
    end
|}.

(** Every call succeeds; the store is empty, the tracker has nothing
    new, and no item can be fetched. *)
Definition quiet : Oracle := fun X c n =>
  match c in ext X return X with
  | GetPersistentValue _ => ("", None)
  | SetPersistentValue _ _ => None
  | Search _ => ([], None)
  | GetCachedBug _ _ => (None, false, Some "bug not found")
  | UpdateBug _ _ => None
  | BugList _ _ => ([], None)
  | PostMessageChannel _ => ("C024", "1700000000.000100", None)
  | MessageChannel _ => None
  | GetUserProfile _ _ => (Some {| slackgo.Email := "dev@example.com" |}, None)
  | UpdateMessage ch ts _ => (ch, ts, "", None)
  | Now => 1700000000 * time.Second
  | Sleep _ => tt
  | Lock => tt
  | Unlock => tt
  | LoadMessages => []
  | StoreMessages _ => tt
  | Klog _ _ _ => tt
  | RecorderWarningf _ _ _ => tt
  end.

Definition bug (id : Z) (status assignee : string) : bugzilla.Bug :=
  {| bugzilla.ID := id;
     bugzilla.Status := status;
     bugzilla.AssignedTo := assignee;
     bugzilla.Resolution := "";
     bugzilla.Classification := "Red Hat";
     bugzilla.Product := "OpenShift Container Platform";
     bugzilla.Component := ["etcd"];
     bugzilla.CreationTime := 1699990000 * time.Second |}.

Definition reporter : NewBugReporter :=
  {| nbrConfig := {| config.Lists := {| config.Closed :=
                       {| config.Name := "closed-24h"; config.SharerID := "7" |} |} |};
     components := ["etcd"];
     takeBlockerID := "new-bugs-reporter/take-etcd" |}.

Definition emptyWorld : World :=
  {| store := ∅; messagesToWatchAndUpdate := [];
     messagesLock := false; trace := [] |}.

(** The cursor is at 100. *)
Definition world100 : World :=
  withStore {[ new.stateKey reporter := "100" ]} emptyWorld.

(** The store cannot be read. *)
Definition storeDown : Oracle := fun X c n =>
  match c in ext X return X with
  | GetPersistentValue _ => ("", Some "connection refused")
  | c' => quiet _ c' n
  end.

(** The scan returns items 101 and 103; every post succeeds. *)
Definition twoNew : Oracle := fun X c n =>
  match c in ext X return X with
  | Search _ => ([bug 101 "NEW" ""; bug 103 "NEW" ""], None)
  | c' => quiet _ c' n
  end.

(** The scan returns items 101 and 103; no post goes through. *)
Definition postsFail : Oracle := fun X c n =>
  match c in ext X return X with
  | Search _ => ([bug 101 "NEW" ""; bug 103 "NEW" ""], None)
  | PostMessageChannel _ => ("", "", Some "rate limited")
  | c' => quiet _ c' n
  end.

(** The scan is fine, the cursor cannot be written. *)
Definition writeFails : Oracle := fun X c n =>
  match c in ext X return X with
  | Search _ => ([bug 101 "NEW" ""], None)
  | SetPersistentValue _ _ => Some "disk full"
  | c' => quiet _ c' n
  end.

(** The tracker during a reconciliation pass: item 101 was closed, item
    103 is still new, nothing else can be fetched. *)
Definition fetched (id : Z) : option bugzilla.Bug * bool * option error :=
  if id =? 101 then (Some (bug 101 "CLOSED" "dev@example.com"), false, None)
  else if id =? 103 then (Some (bug 103 "NEW" ""), false, None)
  else (None, false, Some "bug not found").

(** A pass at an instant [rightNow] in which no chat edit goes through. *)
Definition rightNow : Z := 1700000000 * time.Second.

Definition reconciling : Oracle := fun X c n =>
  match c in ext X return X with
  | GetCachedBug id _ => fetched id
  | UpdateMessage _ _ _ => ("", "", "", Some "message_not_found")
  | Now => rightNow
  | c' => quiet _ c' n
  end.

Definition entry (id age : Z) : message :=
  {| createdAt := rightNow - age; ID := id;
     channelID := "C024"; ts := "1700000000.000100" |}.

(** Four entries: a closed item, a new one, one that cannot be fetched,
    and a new one posted 31 days ago. *)
Definition watching : World :=
  withMessages [entry 101 time.Hour; entry 103 time.Hour;
                entry 105 time.Hour; entry 103 (31 * tracker.Day)]
    emptyWorld.

(** A click on the claim button of item 103, rendered when the item was
    assigned to bob. *)
Definition clicker : slackgo.User := {| slackgo.userID := "U07" |}.

Definition notice : slackgo.Container :=
  {| slackgo.ChannelID := "C024"; slackgo.MessageTs := "1700000000.000100" |}.

Definition click : slackgo.BlockAction :=
  {| slackgo.actionValue := "103,bob@example.com" |}.

(** Item 103 is still new, and alice has it by now. *)
Definition takenByAlice : Oracle := fun X c n =>
  match c in ext X return X with
  | GetCachedBug id _ => (Some (bug id "NEW" "alice@example.com"), false, None)
  | c' => quiet _ c' n
  end.

(** Item 103 is new and still assigned to bob; the update goes through,
    and the fetch that follows it (the fourth call of the task) fails. *)
Definition refetchFails : Oracle := fun X c n =>
  match c in ext X return X with
  | GetCachedBug id _ =>
    if (n <? 3)%nat then (Some (bug id "NEW" "bob@example.com"), false, None)
    else (None, false, Some "context deadline exceeded")
  | c' => quiet _ c' n
  end.

(** The tracker cannot be searched. *)
Definition scanFails : Oracle := fun X c n =>
  match c in ext X return X with
  | Search _ => ([], Some "tracker down")
  | c' => quiet _ c' n
  end.

(** The stored cursor is not a number. *)
Definition garbled : World :=
  withStore {[ new.stateKey reporter := "abc" ]} emptyWorld.

(** As [fetched], but the fetch of item 105 brings back neither an item
    nor an error. *)
Definition vanished (id : Z) : option bugzilla.Bug * bool * option error :=
  if id =? 105 then (None, false, None) else fetched id.

Definition haunted : Oracle := fun X c n =>
  match c in ext X return X with
  | GetCachedBug id _ => vanished id
  | Now => rightNow
  | c' => quiet _ c' n
  end.

(** Item 103 is new and still assigned to bob; every call succeeds. *)
Definition claimable : Oracle := fun X c n =>
  match c in ext X return X with
  | GetCachedBug id _ => (Some (bug id "NEW" "bob@example.com"), false, None)
  | c' => quiet _ c' n
  end.

(** The list of closed bugs cannot be fetched. *)
Definition listDown : Oracle := fun X c n =>
  match c in ext X return X with
  | BugList _ _ => ([], Some "tracker down")
  | c' => quiet _ c' n
  end.



Definition closedReporter : closed.BlockersReporter :=
  {| closed.reporterConfig := nbrConfig reporter |}.

(** A click whose payload is not of the codec. *)
Definition badClick : slackgo.BlockAction :=
  {| slackgo.actionValue := "garbage" |}.

End sample.

(* ===================================================================== *)
(** * Facts about the prelude                                           *)
(* ===================================================================== *)

Section Strconv.
Import strconv.

Lemma Atoi_digits (d : Decimal.uint) :
  d <> Decimal.Nil ->
  Atoi (NilEmpty.string_of_uint d)
  = if inRange (Z.of_uint d) then Some (Z.of_uint d) else None.
Proof.
  intros Hd. pose proof (NilEmpty.usu d) as Hu.
  destruct d; [congruence | ..]; unfold Atoi; cbn [NilEmpty.string_of_uint] in *;
    cbv match beta iota; rewrite Hu; reflexivity.
Qed.

Lemma Atoi_minus_digits (d : Decimal.uint) :
  d <> Decimal.Nil ->
  Atoi (String "-" (NilEmpty.string_of_uint d))
  = if inRange (- Z.of_uint d) then Some (- Z.of_uint d) else None.
Proof.
  intros Hd. pose proof (NilEmpty.usu d) as Hu.
  destruct d; [congruence | ..]; unfold Atoi; cbn [NilEmpty.string_of_uint] in *;
    cbv match beta iota; rewrite Hu; reflexivity.
Qed.

Lemma string_of_uint_nonnil (d : Decimal.uint) :
  d <> Decimal.Nil -> NilZero.string_of_uint d = NilEmpty.string_of_uint d.
Proof. destruct d; [congruence | reflexivity..]. Qed.

(** Parsing what was printed gives the number back. *)
Lemma Atoi_Itoa (n : Z) : inRange n = true -> Atoi (Itoa n) = Some n.
Proof.
  intros Hn. unfold Itoa. destruct n as [|p|p]; simpl.
  - reflexivity.
  - pose proof (Unsigned.to_uint_nonnil p) as Hp.
    rewrite string_of_uint_nonnil, Atoi_digits by assumption.
    unfold Z.of_uint. rewrite Unsigned.of_to. simpl. now rewrite Hn.
  - pose proof (Unsigned.to_uint_nonnil p) as Hp.
    rewrite string_of_uint_nonnil, Atoi_minus_digits by assumption.
    unfold Z.of_uint. rewrite Unsigned.of_to.
    change (- Z.of_N (N.pos p)) with (Z.neg p). now rewrite Hn.
Qed.

Lemma Itoa_nonempty (n : Z) : Itoa n <> "".
Proof.
  unfold Itoa. destruct n as [|p|p]; simpl; try discriminate.
  pose proof (Unsigned.to_uint_nonnil p) as Hp.
  rewrite string_of_uint_nonnil by assumption.
  destruct (Pos.to_uint p); [congruence | discriminate..].
Qed.

Lemma Atoi_inRange (s : string) (n : Z) : Atoi s = Some n -> inRange n = true.
Proof.
  unfold Atoi.
  destruct (match s with
            | String "-" r => (true, r)
            | String "+" r => (false, r)
            | _ => (false, s)
            end) as [neg digits].
  destruct digits; [discriminate |].
  destruct (NilEmpty.uint_of_string _); [| discriminate].
  destruct (inRange _) eqn:E; [| discriminate].
  now intros [= <-].
Qed.

End Strconv.

(* ===================================================================== *)
(** * Running programs                                                  *)
(* ===================================================================== *)

Section Running.
Context (o : Oracle).

Lemma run_ret {A : Type} (a : A) (w : World) :
  run o (mret a) w = (Returned a, w).
Proof. reflexivity. Qed.

Lemma run_bind {A B : Type} (p : prog A) (f : A -> prog B) (w : World) :
  run o (p ≫= f) w
  = match run o p w with
    | (Returned a, w') => run o (f a) w'
    | (Panicked v, w') => (Panicked v, w')
    end.
Proof.
  unfold mbind, prog_bind. revert w.
  induction p as [a | X c k IH | v]; intros w; simpl; try reflexivity.
  destruct (respond o c w) as [x w']. apply IH.
Qed.

Lemma run_call {X : Type} (c : ext X) (w : World) :
  run o (call c) w = (Returned (respond o c w).1, (respond o c w).2).
Proof. unfold call. simpl. now destruct (respond o c w). Qed.

(** A deferred call runs last, whatever the body did. *)
Lemma run_defer_call {A : Type} (d : ext unit) (body : prog A) (w : World) :
  run o (defer (call d) body) w
  = let '(r, w') := run o body w in (r, (respond o d w').2).
Proof.
  revert w. induction body as [a | Y c k IH | v]; intros w; simpl.
  - now destruct (respond o d w).
  - destruct (respond o c w) as [x w']. apply IH.
  - now destruct (respond o d w).
Qed.

Lemma respond_trace {X : Type} (c : ext X) (w : World) :
  trace (respond o c w).2 = trace w ++ [Called c (respond o c w).1].
Proof.
  destruct c; simpl; try reflexivity.
  - destruct (o _ (SetPersistentValue key value) (length (trace w))); reflexivity.
Qed.

Lemma run_trace {A : Type} (p : prog A) (w : World) :
  exists evs, trace (run o p w).2 = trace w ++ evs.
Proof.
  revert w. induction p as [a | X c k IH | v]; intros w; simpl.
  - exists []. now rewrite app_nil_r.
  - pose proof (respond_trace c w) as Hc.
    destruct (respond o c w) as [x w']. simpl in Hc.
    destruct (IH x w') as [evs Hevs]. exists (Called c x :: evs).
    rewrite Hevs, Hc, <- app_assoc. reflexivity.
  - exists []. now rewrite app_nil_r.
Qed.

Lemma callsOf_trace {A : Type} (p : prog A) (w : World) :
  trace (run o p w).2 = trace w ++ callsOf o p w.
Proof.
  unfold callsOf. destruct (run_trace p w) as [evs ->].
  now rewrite drop_app_length.
Qed.

Lemma callsOf_eq {A : Type} (p : prog A) (w : World) (evs : list event) :
  trace (run o p w).2 = trace w ++ evs -> callsOf o p w = evs.
Proof. intros E. unfold callsOf. rewrite E. apply drop_app_length. Qed.

End Running.

(* ===================================================================== *)
(** * The sync cycle                                                    *)
(* ===================================================================== *)

Section SyncCycle.
Context `{Helpers} (o : Oracle) (c : NewBugReporter).

Lemma syncPost_run (lastID : Z) (b : bugzilla.Bug) (w : World) :
  exists evs w',
    run o (new.syncPost c lastID b) w
    = (Returned (Z.max lastID (bugzilla.ID b)), w')
    /\ store w' = store w
    /\ messagesLock w' = messagesLock w
    /\ trace w' = trace w ++ evs
    /\ forallb inLoop evs = true.
Proof.
  unfold new.syncPost.
  replace (if bugzilla.ID b >? lastID then bugzilla.ID b else lastID)
    with (Z.max lastID (bugzilla.ID b))
    by (destruct (Z.gtb_spec (bugzilla.ID b) lastID); lia).
  rewrite run_bind, run_call. cbn [respond fst snd].
  destruct (o _ (PostMessageChannel (new.notification c b)) (length (trace w)))
    as [[ch ts] [e|]].
  - eexists _, _. rewrite run_ret.
    split; [reflexivity |]. split; [reflexivity |]. split; [reflexivity |].
    split; reflexivity.
  - do 3 (rewrite run_bind, run_call; cbn [respond fst snd]).
    rewrite run_ret.
    eexists _, _. split; [reflexivity |]. cbn.
    split; [reflexivity |]. split; [reflexivity |].
    split; [rewrite <- !app_assoc; reflexivity | reflexivity].
Qed.

Lemma syncLoop_run (bugs : list bugzilla.Bug) (lastID : Z) (w : World) :
  exists evs w',
    run o (forRange bugs (new.syncPost c) lastID) w
    = (Returned (maxID lastID bugs), w')
    /\ store w' = store w
    /\ messagesLock w' = messagesLock w
    /\ trace w' = trace w ++ evs
    /\ forallb inLoop evs = true
    /\ (bugs = [] -> w' = w).
Proof.
  revert lastID w. induction bugs as [| b bugs IH]; intros lastID w.
  - exists [], w. rewrite app_nil_r. repeat split; reflexivity.
  - cbn [forRange]. rewrite run_bind.
    destruct (syncPost_run lastID b w) as (evs1 & w1 & -> & Hs1 & Hl1 & Ht1 & Hf1).
    destruct (IH (Z.max lastID (bugzilla.ID b)) w1)
      as (evs2 & w2 & -> & Hs2 & Hl2 & Ht2 & Hf2 & _).
    exists (evs1 ++ evs2), w2. cbn [maxID fold_left].
    split; [reflexivity |]. split; [congruence |]. split; [congruence |].
    split; [rewrite Ht2, Ht1, app_assoc; reflexivity |].
    split; [| discriminate].
    rewrite forallb_app, Hf1, Hf2. reflexivity.
Qed.

Lemma maxID_ge (bugs : list bugzilla.Bug) (lastID : Z) :
  lastID <= maxID lastID bugs.
Proof.
  revert lastID. induction bugs as [| b bugs IH]; intros lastID; simpl; [lia |].
  etransitivity; [| apply IH]. lia.
Qed.

Lemma inLoop_aside (evs : list event) :
  forallb inLoop evs = true -> forallb aside evs = true.
Proof.
  induction evs as [| [X e x] evs IH]; [reflexivity |]. simpl.
  intros [He Hevs]%andb_prop. rewrite (IH Hevs), andb_true_r.
  destruct e; try discriminate; reflexivity.
Qed.

Lemma readCursor_run (s : string) (w : World) :
  exists pre w',
    run o (new.readCursor (new.stateKey c) s) w
    = (Returned (new.cursorOf s), w')
    /\ store w' = store w
    /\ messagesToWatchAndUpdate w' = messagesToWatchAndUpdate w
    /\ trace w' = trace w ++ pre
    /\ forallb aside pre = true.
Proof.
  unfold new.readCursor, new.cursorOf.
  destruct (String.eqb s "").
  - exists [], w. rewrite app_nil_r. repeat split; reflexivity.
  - destruct (strconv.Atoi s).
    + exists [], w. rewrite app_nil_r. repeat split; reflexivity.
    + rewrite run_bind, run_call. cbn [respond fst snd]. rewrite run_ret.
      eexists _, _. split; [reflexivity |]. cbn.
      split; [reflexivity |]. split; [reflexivity |].
      split; reflexivity.
Qed.

(** The scan and what follows it, up to the [return] statements. *)
Lemma syncBody_run (lastID : Z) (w : World) :
  exists bugs serr mid w',
    run o (new.syncBody c lastID) w
    = (Returned (serr, match serr with
                       | Some _ => lastID
                       | None => maxID lastID bugs
                       end), w')
    /\ store w' = store w
    /\ trace w' = trace w
                  ++ Called (Search (new.getNewBugsQuery (components c) lastID))
                       (bugs, serr) :: mid
    /\ forallb aside mid = true
    /\ (serr <> None \/ bugs = [] ->
        messagesToWatchAndUpdate w' = messagesToWatchAndUpdate w)
    /\ (exists q n, o _ (Search q) n = (bugs, serr)).
Proof.
  unfold new.syncBody, new.getNewBugs.
  rewrite run_bind, run_call. cbn [respond fst snd].
  destruct (o _ (Search (new.getNewBugsQuery (components c) lastID))
              (length (trace w))) as [bugs [e|]] eqn:Ho.
  - rewrite run_bind, run_call. cbn [respond fst snd]. rewrite run_ret.
    eexists bugs, (Some e), _, _. split; [reflexivity |]. cbn.
    split; [reflexivity |].
    split; [rewrite <- app_assoc; reflexivity |].
    split; [reflexivity |]. split; [reflexivity | eauto].
  - rewrite run_bind, run_call. cbn [respond fst snd].
    rewrite run_defer_call, run_bind.
    match goal with
    | |- context [run o (forRange bugs (new.syncPost c) lastID) ?w0] =>
      destruct (syncLoop_run bugs lastID w0)
        as (evs & w1 & -> & Hs & Hl & Ht & Hf & Hnil)
    end.
    rewrite run_ret. cbn [respond fst snd].
    eexists bugs, None, _, _. split; [reflexivity |]. cbn.
    split; [rewrite Hs; reflexivity |].
    split; [rewrite Ht; cbn; rewrite <- !app_assoc; reflexivity |].
    split; [cbn; rewrite forallb_app, (inLoop_aside _ Hf); reflexivity |].
    split; [| eauto].
    intros [Hc | ->]; [congruence |]. rewrite (Hnil eq_refl). reflexivity.
Qed.

Lemma sync_read_fails (e : error) (w : World) :
  (o _ (GetPersistentValue (new.stateKey c)) (length (trace w))).2 = Some e ->
  run o (new.sync c) w
  = (Returned (Some e),
     logged (GetPersistentValue (new.stateKey c)) ("", Some e) w).
Proof.
  intros Hr. unfold new.sync. rewrite run_bind, run_call.
  cbn [respond fst snd]. rewrite Hr. reflexivity.
Qed.

(** A cycle whose read of the store succeeded, from the read to the
    write of the cursor. *)
Lemma sync_read_ok (w : World) :
  (o _ (GetPersistentValue (new.stateKey c)) (length (trace w))).2 = None ->
  let s := default "" (store w !! new.stateKey c) in
  exists pre bugs serr mid perr w',
    let lastID' := match serr with
                   | Some _ => new.cursorOf s
                   | None => maxID (new.cursorOf s) bugs
                   end in
    run o (new.sync c) w
    = (Returned (match serr with Some e => Some e | None => perr end), w')
    /\ trace w'
       = trace w
         ++ Called (GetPersistentValue (new.stateKey c)) (s, None)
            :: pre
            ++ Called (Search (new.getNewBugsQuery (components c) (new.cursorOf s)))
                 (bugs, serr)
               :: mid
               ++ [Called (SetPersistentValue (new.stateKey c)
                             (strconv.Itoa lastID')) perr]
    /\ forallb aside pre = true
    /\ forallb aside mid = true
    /\ store w' = match perr with
                  | None => <[new.stateKey c := strconv.Itoa lastID']> (store w)
                  | Some _ => store w
                  end
    /\ (serr <> None \/ bugs = [] ->
        messagesToWatchAndUpdate w' = messagesToWatchAndUpdate w)
    /\ (exists q n, o _ (Search q) n = (bugs, serr)).
Proof.
  intros Hr s. unfold new.sync. rewrite run_bind, run_call.
  cbn [respond fst snd]. rewrite Hr. fold s.
  rewrite run_bind.
  match goal with
  | |- context [run o (new.readCursor _ s) ?w0] =>
    destruct (readCursor_run s w0) as (pre & w1 & -> & Hs1 & Hm1 & Ht1 & Hp)
  end.
  rewrite run_bind.
  destruct (syncBody_run (new.cursorOf s) w1)
    as (bugs & serr & mid & w2 & -> & Hs2 & Ht2 & Hmid & Hm2 & Ho).
  rewrite run_bind, run_call.
  set (lastID' := match serr with
                  | Some _ => new.cursorOf s
                  | None => maxID (new.cursorOf s) bugs
                  end).
  cbn [respond fst snd].
  exists pre, bugs, serr, mid.
  destruct (o _ (SetPersistentValue (new.stateKey c) (strconv.Itoa lastID'))
              (length (trace w2))) as [pe|].
  - exists (Some pe). eexists. split; [destruct serr; reflexivity |]. cbn.
    split; [rewrite Ht2, Ht1; cbn; rewrite <- !app_assoc; reflexivity |].
    split; [assumption |]. split; [assumption |].
    split; [rewrite Hs2, Hs1; reflexivity |]. split; [| assumption].
    intros Hc. rewrite (Hm2 Hc), Hm1. reflexivity.
  - exists None. eexists. split; [destruct serr; reflexivity |]. cbn.
    split; [rewrite Ht2, Ht1; cbn; rewrite <- !app_assoc; reflexivity |].
    split; [assumption |]. split; [assumption |].
    split; [rewrite Hs2, Hs1; reflexivity |]. split; [| assumption].
    intros Hc. rewrite (Hm2 Hc), Hm1. reflexivity.
Qed.

End SyncCycle.

Section SyncSummary.
Context `{Helpers} (o : Oracle) (c : NewBugReporter).

Lemma aside_quiet (evs : list event) :
  forallb aside evs = true ->
  cursorReads evs = [] /\ cursorWrites evs = [] /\ scans evs = [].
Proof.
  induction evs as [| [X e x] evs IH]; [repeat split |]. simpl.
  intros [He Hevs]%andb_prop. destruct (IH Hevs) as (Hr & Hw & Hs).
  unfold cursorReads, cursorWrites, scans in *. cbn [omap list_omap].
  rewrite Hr, Hw, Hs. destruct e; try discriminate; repeat split.
Qed.

(** What a cycle leaves behind: it stops at a failed read, or reads,
    scans once and writes the cursor last. *)
Lemma sync_cases (w : World) :
  let s := default "" (store w !! new.stateKey c) in
  let calls := callsOf o (new.sync c) w in
  let w' := (run o (new.sync c) w).2 in
  (exists e,
      (run o (new.sync c) w).1 = Returned (Some e)
      /\ cursorReads calls = [(new.stateKey c, Some e)]
      /\ scans calls = []
      /\ cursorWrites calls = []
      /\ store w' = store w
      /\ messagesToWatchAndUpdate w' = messagesToWatchAndUpdate w)
  \/ (exists bugs serr perr evs,
        let lastID' := match serr with
                       | Some _ => new.cursorOf s
                       | None => maxID (new.cursorOf s) bugs
                       end in
        (run o (new.sync c) w).1
        = Returned (match serr with Some e => Some e | None => perr end)
        /\ cursorReads calls = [(new.stateKey c, None)]
        /\ scans calls = [(bugs, serr)]
        /\ cursorWrites calls
           = [(new.stateKey c, strconv.Itoa lastID', perr)]
        /\ calls = evs ++ [Called (SetPersistentValue (new.stateKey c)
                                     (strconv.Itoa lastID')) perr]
        /\ store w' = match perr with
                      | None => <[new.stateKey c := strconv.Itoa lastID']> (store w)
                      | Some _ => store w
                      end
        /\ (serr <> None \/ bugs = [] ->
            messagesToWatchAndUpdate w' = messagesToWatchAndUpdate w)
        /\ (exists q n, o _ (Search q) n = (bugs, serr))).
Proof.
  intros s calls w'.
  destruct (o _ (GetPersistentValue (new.stateKey c)) (length (trace w))).2
    as [e|] eqn:Hr.
  - left. exists e. subst calls w'.
    pose proof (sync_read_fails o c e w Hr) as E.
    rewrite (callsOf_eq o _ w [Called (GetPersistentValue (new.stateKey c)) ("", Some e)])
      by (rewrite E; reflexivity).
    rewrite E. repeat split.
  - right.
    destruct (sync_read_ok o c w Hr)
      as (pre & bugs & serr & mid & perr & w1 & E & Ht & Hpre & Hmid & Hs & Hm & Ho).
    fold s in E, Ht, Hs.
    destruct (aside_quiet _ Hpre) as (Hr1 & Hw1 & Hs1).
    destruct (aside_quiet _ Hmid) as (Hr2 & Hw2 & Hs2).
    assert (Hc : callsOf o (new.sync c) w
                 = (Called (GetPersistentValue (new.stateKey c)) (s, None)
                      :: pre
                      ++ Called (Search (new.getNewBugsQuery (components c)
                                           (new.cursorOf s))) (bugs, serr)
                      :: mid)
                   ++ [Called (SetPersistentValue (new.stateKey c)
                                 (strconv.Itoa
                                    match serr with
                                    | Some _ => new.cursorOf s
                                    | None => maxID (new.cursorOf s) bugs
                                    end)) perr]).
    { apply callsOf_eq. rewrite E. cbn [snd]. rewrite Ht.
      cbn. rewrite <- !app_assoc. reflexivity. }
    exists bugs, serr, perr. eexists.
    subst calls w'. rewrite Hc, E. cbn [fst snd].
    split; [reflexivity |].
    unfold cursorReads, cursorWrites, scans in *.
    rewrite !omap_app. cbn [omap list_omap asCursorRead asCursorWrite asScan snd].
    rewrite !omap_app. cbn [omap list_omap asCursorRead asCursorWrite asScan snd].
    rewrite Hr1, Hr2, Hw1, Hw2, Hs1, Hs2.
    split; [reflexivity |]. split; [reflexivity |]. split; [reflexivity |].
    split; [reflexivity |]. split; [assumption |]. split; assumption.
Qed.

End SyncSummary.

Section Cursor.
Context `{Helpers} (o : Oracle) (c : NewBugReporter).

Lemma cursorOf_inRange (s : string) : strconv.inRange (new.cursorOf s) = true.
Proof.
  unfold new.cursorOf. destruct (String.eqb s ""); [reflexivity |].
  destruct (strconv.Atoi s) eqn:E; [| reflexivity].
  eapply Atoi_inRange; eassumption.
Qed.

Lemma cursorOf_Itoa (n : Z) :
  strconv.inRange n = true -> new.cursorOf (strconv.Itoa n) = n.
Proof.
  intros Hn. unfold new.cursorOf.
  destruct (String.eqb_spec (strconv.Itoa n) "") as [E | _].
  - now apply Itoa_nonempty in E.
  - now rewrite Atoi_Itoa.
Qed.

Lemma maxID_inRange (bugs : list bugzilla.Bug) (lastID : Z) :
  strconv.inRange lastID = true ->
  (forall b, In b bugs -> strconv.inRange (bugzilla.ID b) = true) ->
  strconv.inRange (maxID lastID bugs) = true.
Proof.
  revert lastID. induction bugs as [| b bugs IH]; intros lastID Hl Hb; [exact Hl |].
  cbn [maxID fold_left]. apply IH.
  - destruct (Z.max_spec lastID (bugzilla.ID b)) as [[_ ->] | [_ ->]];
      [apply Hb; now left | exact Hl].
  - intros b' Hb'. apply Hb. now right.
Qed.

Lemma maxID_le (bugs : list bugzilla.Bug) (lastID M : Z) :
  lastID <= M -> (forall b, In b bugs -> bugzilla.ID b <= M) ->
  maxID lastID bugs <= M.
Proof.
  revert lastID. induction bugs as [| b bugs IH]; intros lastID Hl Hb; [exact Hl |].
  cbn [maxID fold_left]. apply IH.
  - apply Z.max_lub; [exact Hl | apply Hb; now left].
  - intros b' Hb'. apply Hb. now right.
Qed.

Lemma maxID_ge_item (bugs : list bugzilla.Bug) (lastID : Z) (b : bugzilla.Bug) :
  In b bugs -> bugzilla.ID b <= maxID lastID bugs.
Proof.
  revert lastID. induction bugs as [| b' bugs IH]; intros lastID; [intros [] |].
  cbn [maxID fold_left]. intros [-> | Hin].
  - etransitivity; [| apply maxID_ge]. lia.
  - now apply IH.
Qed.

Lemma maxID_isMax (bugs : list bugzilla.Bug) (lastID M : Z) :
  isMaxID M bugs -> lastID <= M -> maxID lastID bugs = M.
Proof.
  intros [(b & Hb & <-) Hub] Hl. apply Z.le_antisymm.
  - now apply maxID_le.
  - now apply maxID_ge_item.
Qed.

(** One cycle never moves the persisted cursor back. *)
Lemma cursor_sync_mono (w : World) :
  goInts o -> cursor c w <= cursor c (run o (new.sync c) w).2.
Proof.
  intros Ho. unfold cursor.
  destruct (sync_cases o c w)
    as [(e & _ & _ & _ & _ & -> & _)
       | (bugs & serr & perr & evs & _ & _ & _ & _ & _ & -> & _ & (q & n & Hq))];
    [reflexivity |].
  destruct perr as [pe|]; [reflexivity |].
  rewrite lookup_insert_eq. cbn [default id].
  set (s := default "" (store w !! new.stateKey c)).
  rewrite cursorOf_Itoa.
  - destruct serr; [reflexivity | apply maxID_ge].
  - destruct serr; [apply cursorOf_inRange |].
    apply maxID_inRange; [apply cursorOf_inRange |].
    intros b Hb. apply (Ho q n). now rewrite Hq.
Qed.

Lemma cursor_cycles_mono (w : World) (i j : nat) :
  goInts o -> (i <= j)%nat ->
  cursor c (cycles o c i w) <= cursor c (cycles o c j w).
Proof.
  intros Ho Hij. induction Hij as [| j _ IH]; [reflexivity |].
  etransitivity; [exact IH |]. cbn [cycles]. now apply cursor_sync_mono.
Qed.

End Cursor.

Section CursorClaims.
Context `{Helpers} (o : Oracle) (c : NewBugReporter).

(** C1 (amended). Over any number of sync cycles the persisted cursor
    never decreases. After a cycle whose scan returned items of largest
    id [M], not below the cursor the cycle started from, and whose
    cursor write succeeded, the persisted cursor is [M], whatever became
    of the posts. The last call of every cycle whose read of the store
    succeeded is the write of the cursor. *)
Theorem sync_cursor_advances (w : World) :
  goInts o ->
  let calls := callsOf o (new.sync c) w in
  (forall i j : nat, (i <= j)%nat ->
     cursor c (cycles o c i w) <= cursor c (cycles o c j w))
  /\ (forall (bugs : list bugzilla.Bug) (M : Z),
        In (bugs, None) (scans calls) ->
        (forall k v e, In (k, v, e) (cursorWrites calls) -> e = None) ->
        isMaxID M bugs ->
        cursor c w <= M ->
        cursor c (run o (new.sync c) w).2 = M)
  /\ ((forall k e, In (k, e) (cursorReads calls) -> e = None) ->
      exists evs v perr,
        calls = evs ++ [Called (SetPersistentValue (new.stateKey c) v) perr]).
Proof.
  intros Ho calls. split; [| split].
  - intros i j Hij. now apply cursor_cycles_mono.
  - intros bugs M Hscan Hwrite HM Hle. subst calls. unfold cursor in *.
    destruct (sync_cases o c w)
      as [(e & _ & _ & Hs & _)
         | (bugs' & serr & perr & evs & _ & _ & Hs & Hw & _ & -> & _ & (q & n & Hq))].
    + rewrite Hs in Hscan. destruct Hscan.
    + rewrite Hs in Hscan. destruct Hscan as [[= -> ->] | []].
      rewrite Hw in Hwrite.
      assert (perr = None) as -> by (eapply Hwrite; left; reflexivity).
      rewrite lookup_insert_eq. cbn [default id].
      rewrite (maxID_isMax bugs _ M HM Hle). apply cursorOf_Itoa.
      destruct HM as [(b & Hb & <-) _]. apply (Ho q n). now rewrite Hq.
  - intros Hread. subst calls.
    destruct (sync_cases o c w)
      as [(e & _ & Hr & _)
         | (bugs' & serr & perr & evs & _ & _ & _ & _ & Hc & _)].
    + rewrite Hr in Hread. discriminate (Hread _ _ (or_introl eq_refl)).
    + eauto.
Qed.

(** C9. A cycle that got as far as its scan ends with the write of the
    cursor, whether the scan or some posts failed or not; and when the
    scan succeeded and that write fails, the failure of the write is
    the error the cycle returns. *)
Theorem sync_persists_cursor (w : World) :
  let calls := callsOf o (new.sync c) w in
  scans calls <> [] ->
  (exists evs v perr,
      calls = evs ++ [Called (SetPersistentValue (new.stateKey c) v) perr])
  /\ (forall bugs k v pe,
        In (bugs, None) (scans calls) ->
        In (k, v, Some pe) (cursorWrites calls) ->
        (run o (new.sync c) w).1 = Returned (Some pe)).
Proof.
  intros calls Hscans. subst calls.
  destruct (sync_cases o c w)
    as [(e & _ & _ & Hs & _)
       | (bugs' & serr & perr & evs & Hres & _ & Hs & Hw & Hc & _)];
    [congruence |].
  split; [eauto |].
  intros bugs k v pe Hscan Hwrite. rewrite Hs in Hscan. rewrite Hw in Hwrite.
  destruct Hscan as [[= -> ->] | []]. destruct Hwrite as [[= _ _ ->] | []].
  exact Hres.
Qed.

(** C7. When the scan of the second of two cycles in a row returns no
    items, the persisted cursor and the registry are after the second
    cycle what they were after the first. *)
Theorem sync_twice_no_new_items (w : World) :
  let w1 := (run o (new.sync c) w).2 in
  let w2 := (run o (new.sync c) w1).2 in
  (forall bugs serr,
      In (bugs, serr) (scans (callsOf o (new.sync c) w1)) -> bugs = []) ->
  cursor c w2 = cursor c w1
  /\ messagesToWatchAndUpdate w2 = messagesToWatchAndUpdate w1.
Proof.
  intros w1 w2 Hnone. subst w2. generalize dependent w1. intros w1 Hnone.
  unfold cursor.
  destruct (sync_cases o c w1)
    as [(e & _ & _ & _ & _ & -> & ->)
       | (bugs & serr & perr & evs & _ & _ & Hs & _ & _ & -> & Hm & _)];
    [split; reflexivity |].
  rewrite Hs in Hnone. specialize (Hnone bugs serr (or_introl eq_refl)).
  subst bugs. split; [| apply Hm; now right].
  destruct perr as [pe|]; [reflexivity |].
  rewrite lookup_insert_eq. cbn [default id].
  replace (match serr with
           | Some _ => new.cursorOf (default "" (store w1 !! new.stateKey c))
           | None => maxID (new.cursorOf (default "" (store w1 !! new.stateKey c))) []
           end) with (new.cursorOf (default "" (store w1 !! new.stateKey c)))
    by (destruct serr; reflexivity).
  apply cursorOf_Itoa, cursorOf_inRange.
Qed.

End CursorClaims.

(* ===================================================================== *)
(** * The reconciliation pass                                           *)
(* ===================================================================== *)

Section Pass.
Context `{Helpers} (o : Oracle).

Lemma extended_nil (w : World) : extended [] w = w.
Proof. destruct w. unfold extended. cbn. now rewrite app_nil_r. Qed.

Lemma extended_app (evs1 evs2 : list event) (w : World) :
  extended evs2 (extended evs1 w) = extended (evs1 ++ evs2) w.
Proof. unfold extended. cbn. now rewrite app_assoc. Qed.

Lemma dropOld_run (notTooOld : list message) (m : message) (w : World) :
  run o (new.dropOld notTooOld m) w
  = (Returned (if new.tooOld (o _ Now (length (trace w))) m
               then notTooOld else notTooOld ++ [m]),
     extended [Called Now (o _ Now (length (trace w)))] w).
Proof.
  unfold new.dropOld. rewrite run_bind, run_call. cbn [respond fst snd].
  destruct (new.tooOld _ m); reflexivity.
Qed.

Lemma dropOld_loop (ms notTooOld : list message) (w : World) :
  exists res evs,
    run o (forRange ms new.dropOld notTooOld) w = (Returned res, extended evs w)
    /\ forallb inPass evs = true
    /\ (forall now, (forall n, o _ Now n = now) ->
        res = notTooOld ++ List.filter (fun m => negb (new.tooOld now m)) ms).
Proof.
  revert notTooOld w. induction ms as [| m ms IH]; intros acc w.
  - exists acc, []. rewrite extended_nil. cbn. rewrite app_nil_r. repeat split.
  - cbn [forRange]. rewrite run_bind, dropOld_run.
    destruct (IH (if new.tooOld (o _ Now (length (trace w))) m then acc else acc ++ [m])
                (extended [Called Now (o _ Now (length (trace w)))] w))
      as (res & evs & -> & Hevs & Hres).
    exists res, (Called Now (o _ Now (length (trace w))) :: evs).
    rewrite extended_app. split; [reflexivity |]. split; [exact Hevs |].
    intros now Hnow. rewrite (Hres now Hnow), Hnow. cbn [List.filter].
    destruct (new.tooOld now m); cbn [negb]; [reflexivity |].
    now rewrite <- app_assoc.
Qed.

End Pass.

Section Reconcile.
Context `{Helpers} (o : Oracle).

Lemma logged_extended {X : Type} (c : ext X) (x : X) (w : World) :
  logged c x w = extended [Called c x] w.
Proof. reflexivity. Qed.

Lemma reconcile_run (messagesToWatch : list message) (m : message) (w : World) :
  exists r evs,
    run o (new.reconcile messagesToWatch m) w = (r, extended evs w)
    /\ forallb inPass evs = true
    /\ (forall now fetch, steady o now fetch -> fetchesItems fetch ->
        r = Returned (if leftNew (fetch (ID m))
                      then messagesToWatch else messagesToWatch ++ [m])).
Proof.
  unfold new.reconcile. rewrite run_bind, run_call. cbn [respond fst snd].
  set (n := length (trace w)).
  destruct (o _ (GetCachedBug (ID m) "") n) as [[b cached] [e|]] eqn:Ho.
  - rewrite run_bind, run_call. cbn [respond fst snd]. rewrite run_ret.
    rewrite !logged_extended, ?extended_app. eexists _, _. split; [reflexivity |]. split; [reflexivity |].
    intros now fetch [_ Hf] _. rewrite <- (Hf n (ID m) ""), Ho.
    unfold leftNew, fetchedStatus. now destruct b.
  - destruct b as [b|].
    + rewrite run_bind. cbn [deref]. rewrite run_ret.
      destruct (String.eqb (bugzilla.Status b) "NEW") eqn:Hnew.
      * rewrite run_ret. rewrite !logged_extended, ?extended_app. eexists _, _. split; [reflexivity |].
        split; [reflexivity |].
        intros now fetch [_ Hf] _. rewrite <- (Hf n (ID m) ""), Ho.
        unfold leftNew, fetchedStatus. now rewrite Hnew.
      * rewrite run_bind, run_call. cbn [respond fst snd].
        rewrite run_bind, run_call. cbn [respond fst snd].
        match goal with
        | |- context [o _ (UpdateMessage ?ch ?t ?opts) ?k] =>
          destruct (o _ (UpdateMessage ch t opts) k) as [[[ch' ts'] txt] [e|]]
        end.
        -- rewrite run_bind, run_call. cbn [respond fst snd]. rewrite run_ret.
           rewrite !logged_extended, ?extended_app. eexists _, _. split; [reflexivity |].
           split; [reflexivity |].
           intros now fetch [_ Hf] _. rewrite <- (Hf n (ID m) ""), Ho.
           unfold leftNew, fetchedStatus. now rewrite Hnew.
        -- rewrite run_ret.
           rewrite !logged_extended, ?extended_app. eexists _, _. split; [reflexivity |].
           split; [reflexivity |].
           intros now fetch [_ Hf] _. rewrite <- (Hf n (ID m) ""), Ho.
           unfold leftNew, fetchedStatus. now rewrite Hnew.
    + rewrite run_bind. cbn [deref run].
      rewrite !logged_extended, ?extended_app. eexists _, _. split; [reflexivity |]. split; [reflexivity |].
      intros now fetch [_ Hf] Hitems. exfalso.
      apply (Hitems (ID m)); rewrite <- (Hf n (ID m) ""), Ho; reflexivity.
Qed.

Lemma reconcile_loop (ms messagesToWatch : list message) (w : World) :
  exists r evs,
    run o (forRange ms new.reconcile messagesToWatch) w = (r, extended evs w)
    /\ forallb inPass evs = true
    /\ (forall now fetch, steady o now fetch -> fetchesItems fetch ->
        r = Returned (messagesToWatch
                      ++ List.filter (fun m => negb (leftNew (fetch (ID m)))) ms)).
Proof.
  revert messagesToWatch w. induction ms as [| m ms IH]; intros acc w.
  - exists (Returned acc), []. rewrite extended_nil. cbn. rewrite app_nil_r.
    repeat split.
  - cbn [forRange]. rewrite run_bind.
    destruct (reconcile_run acc m w) as (r1 & evs1 & -> & Hevs1 & Hr1).
    destruct r1 as [acc1 | v].
    + destruct (IH acc1 (extended evs1 w)) as (r & evs & -> & Hevs & Hr).
      exists r, (evs1 ++ evs). rewrite extended_app.
      split; [reflexivity |]. split; [now rewrite forallb_app, Hevs1, Hevs |].
      intros now fetch Hs Hi. rewrite (Hr now fetch Hs Hi).
      specialize (Hr1 now fetch Hs Hi). injection Hr1 as ->.
      cbn [List.filter]. destruct (leftNew (fetch (ID m))); cbn [negb];
        [reflexivity | now rewrite <- app_assoc].
    + exists (Panicked v), evs1. split; [reflexivity |]. split; [exact Hevs1 |].
      intros now fetch Hs Hi. discriminate (Hr1 now fetch Hs Hi).
Qed.

End Reconcile.

Section PassSummary.
Context `{Helpers} (o : Oracle).

Lemma run_recover (handler : string -> prog unit) (body : prog unit) (w : World) :
  run o (recover handler body) w
  = match run o body w with
    | (Returned a, w') => (Returned a, w')
    | (Panicked v, w') => run o (handler v) w'
    end.
Proof.
  revert w. induction body as [a | X c k IH | v]; intros w; simpl; try reflexivity.
  destruct (respond o c w) as [x w']. apply IH.
Qed.

Lemma pass_run (w : World) :
  let ms := messagesToWatchAndUpdate w in
  let w' := (run o new.updateMessagesPass w).2 in
  exists evs1 evs2 notTooOld r,
    (run o new.updateMessagesPass w).1 = Returned tt
    /\ callsOf o new.updateMessagesPass w
       = [Called Lock tt; Called LoadMessages ms]
         ++ evs1
         ++ [Called (StoreMessages notTooOld) tt; Called LoadMessages notTooOld]
         ++ evs2 ++ passEnd r
    /\ forallb inPass evs1 = true
    /\ forallb inPass evs2 = true
    /\ messagesToWatchAndUpdate w'
       = match r with Returned l => l | Panicked _ => notTooOld end
    /\ messagesLock w' = false
    /\ store w' = store w
    /\ (forall now fetch, steady o now fetch -> fetchesItems fetch ->
        notTooOld = List.filter (fun m => negb (new.tooOld now m)) ms
        /\ r = Returned (List.filter (fun m => negb (leftNew (fetch (ID m))))
                           notTooOld)).
Proof.
  intros ms w'. subst w'. unfold callsOf.
  remember (run o new.updateMessagesPass w) as R eqn:E.
  unfold new.updateMessagesPass in E.
  rewrite run_recover, run_bind, run_call in E. cbn [respond fst snd] in E.
  rewrite run_defer_call, run_bind, run_call in E. cbn [respond fst snd] in E.
  rewrite run_bind in E.
  cbn [messagesToWatchAndUpdate logged withLock] in E. fold ms in E.
  match type of E with
  | context [run o (forRange ms new.dropOld []) ?w0] =>
    destruct (dropOld_loop o ms [] w0) as (res1 & evs1 & E1 & Hevs1 & Hres1)
  end.
  rewrite E1 in E. clear E1.
  rewrite run_bind, run_call in E. cbn [respond fst snd] in E.
  rewrite run_bind, run_call in E. cbn [respond fst snd] in E.
  cbn [messagesToWatchAndUpdate logged withMessages extended] in E.
  rewrite run_bind in E.
  match type of E with
  | context [run o (forRange res1 new.reconcile []) ?w0] =>
    destruct (reconcile_loop o res1 [] w0) as (r & evs2 & E2 & Hevs2 & Hr)
  end.
  rewrite E2 in E. clear E2.
  exists evs1, evs2, res1, r.
  destruct r as [l | v].
  - rewrite run_bind, run_call in E. cbn [respond fst snd] in E.
    rewrite run_call in E. cbn [respond fst snd] in E.
    repeat match type of E with
           | context [o unit ?c ?n] => destruct (o unit c n)
           end.
    subst R. cbn [fst snd].
    split; [reflexivity |].
    split; [cbn; rewrite <- !app_assoc; apply drop_app_length |].
    split; [exact Hevs1 |]. split; [exact Hevs2 |].
    split; [reflexivity |]. split; [reflexivity |]. split; [reflexivity |].
    intros now fetch Hs Hi. split.
    + exact (Hres1 now (proj1 Hs)).
    + exact (Hr now fetch Hs Hi).
  - cbn [respond fst snd] in E. rewrite run_call in E. cbn [respond fst snd] in E.
    repeat match type of E with
           | context [o unit ?c ?n] => destruct (o unit c n)
           end.
    subst R. cbn [fst snd].
    split; [reflexivity |].
    split; [cbn; rewrite <- !app_assoc; apply drop_app_length |].
    split; [exact Hevs1 |]. split; [exact Hevs2 |].
    split; [reflexivity |]. split; [reflexivity |]. split; [reflexivity |].
    intros now fetch Hs Hi. discriminate (Hr now fetch Hs Hi).
Qed.

End PassSummary.

Section PassClaims.
Context `{Helpers} (o : Oracle).

Lemma heldAtSleep_inPass (held : bool) (evs rest : list event) :
  forallb inPass evs = true ->
  heldAtSleep held (evs ++ rest) = heldAtSleep held rest.
Proof.
  induction evs as [| [X e x] evs IH]; [reflexivity |]. cbn [forallb app].
  intros [He Hevs]%andb_prop. rewrite <- (IH Hevs).
  destruct e; try discriminate; reflexivity.
Qed.

(** C3 fails on the code. A pass that runs to its end stores the entries
    it keeps, sleeps and only then unlocks: its one sleep happens with
    [messagesLock] held. A pass cut short by a fault unlocks without
    having slept. *)
Theorem updateMessages_sleeps_holding_lock (w : World) :
  let calls := callsOf o new.updateMessagesPass w in
  exists evs r,
    calls = evs ++ passEnd r
    /\ heldAtSleep (messagesLock w) calls
       = match r with Returned _ => [true] | Panicked _ => [] end.
Proof.
  intros calls. subst calls.
  destruct (pass_run o w)
    as (evs1 & evs2 & res1 & r & _ & Hc & Hevs1 & Hevs2 & _).
  rewrite Hc.
  exists ([Called Lock tt; Called LoadMessages (messagesToWatchAndUpdate w)]
            ++ evs1
            ++ [Called (StoreMessages res1) tt; Called LoadMessages res1]
            ++ evs2), r.
  split; [now rewrite <- !app_assoc |].
  cbn [app heldAtSleep]. rewrite heldAtSleep_inPass by assumption.
  cbn [app heldAtSleep]. rewrite heldAtSleep_inPass by assumption.
  destruct r; reflexivity.
Qed.

(** C4. While the clock reads [now] and the tracker answers [fetch], a
    pass returns, adds no entry, and removes an entry exactly when the
    fetched status of its item is no longer "NEW" or the entry was created
    more than 30 days before [now]: an entry whose fetch fails or whose
    item is still "NEW" stays unless it is that old, and an entry whose
    item left "NEW" goes whatever the chat edit answers. *)
Theorem reconciliation_removes (w : World) (now : Z)
    (fetch : Z -> option bugzilla.Bug * bool * option error) :
  steady o now fetch ->
  fetchesItems fetch ->
  let w' := (run o new.updateMessagesPass w).2 in
  (run o new.updateMessagesPass w).1 = Returned tt
  /\ (forall m, In m (messagesToWatchAndUpdate w') ->
                In m (messagesToWatchAndUpdate w))
  /\ (forall m, In m (messagesToWatchAndUpdate w) ->
        (~ In m (messagesToWatchAndUpdate w')
         <-> leftNew (fetch (ID m)) = true
             \/ createdAt m < now - 30 * tracker.Day)).
Proof.
  intros Hs Hi w'. subst w'.
  destruct (pass_run o w)
    as (evs1 & evs2 & res1 & r & Hret & _ & _ & _ & Hm & _ & _ & Hsteady).
  destruct (Hsteady now fetch Hs Hi) as [-> ->]. rewrite Hm.
  split; [exact Hret |]. split.
  - intros m Hin. apply filter_In in Hin as [Hin _].
    apply filter_In in Hin as [Hin _]. exact Hin.
  - intros m Hin. rewrite !filter_In.
    assert (Hold : new.tooOld now m = true <-> createdAt m < now - 30 * tracker.Day).
    { unfold new.tooOld, time.Before, time.Add, tracker.Day.
      rewrite Z.ltb_lt. lia. }
    destruct (leftNew (fetch (ID m))); destruct (new.tooOld now m); cbn [negb];
      intuition congruence.
Qed.

End PassClaims.

(* ===================================================================== *)
(** * The scanner                                                       *)
(* ===================================================================== *)

Section Scanner.
Context `{Helpers}.





End Scanner.

(* ===================================================================== *)
(** * The closed-bug report                                             *)
(* ===================================================================== *)

Section ClosedReport.
Context `{Helpers} (o : Oracle).

(** C10. When the list of closed bugs comes back empty and without error,
    [Report] returns the empty string and no error, and [sync] returns no
    error without posting anything to the channel. *)
Theorem closed_report_empty (c : closed.BlockersReporter) (w : World) :
  let cfg := closed.reporterConfig c in
  let list := BugList (config.Name (config.Closed (config.Lists cfg)))
                      (config.SharerID (config.Closed (config.Lists cfg))) in
  o _ list (length (trace w)) = ([], None) ->
  (run o (closed.Report cfg) w).1 = Returned ("", None)
  /\ (run o (closed.sync c) w).1 = Returned None
  /\ callsOf o (closed.sync c) w = [Called list ([], None)]
  /\ messageChannels (callsOf o (closed.sync c) w) = [].
Proof.
  intros cfg list Ho.
  assert (ER : run o (closed.Report cfg) w
               = (Returned ("", None), logged list ([], None) w)).
  { unfold closed.Report. rewrite run_bind, run_call. cbn [respond fst snd].
    fold cfg. fold list. rewrite Ho. reflexivity. }
  assert (ES : run o (closed.sync c) w = (Returned None, logged list ([], None) w)).
  { unfold closed.sync. fold cfg. rewrite run_bind, ER. reflexivity. }
  assert (EC : callsOf o (closed.sync c) w = [Called list ([], None)])
    by (apply callsOf_eq; rewrite ES; reflexivity).
  rewrite ER, ES, EC. repeat split.
Qed.

End ClosedReport.

Section SyncErrors.
Context `{Helpers} (o : Oracle) (c : NewBugReporter).

(** The error of a cycle is that of its read of the store, of its scan or
    of its write of the cursor; what the posts answered has no part in it. *)
Lemma sync_error_source (w : World) (e : error) :
  let calls := callsOf o (new.sync c) w in
  (run o (new.sync c) w).1 = Returned (Some e) ->
  In (Some e) (cursorReads calls).*2
  \/ In (Some e) (scans calls).*2
  \/ In (Some e) (cursorWrites calls).*2.
Proof.
  intros calls. subst calls.
  destruct (sync_cases o c w)
    as [(e' & -> & -> & _)
       | (bugs & serr & perr & evs & -> & _ & -> & -> & _)].
  - intros [= ->]. left. now left.
  - destruct serr as [se |]; intros [= ->]; right; [left | right]; now left.
Qed.

End SyncErrors.

(* ===================================================================== *)
(** * The claim handler                                                 *)
(* ===================================================================== *)

(** One call, answered by the oracle, in the equation [E] of a run. *)
Ltac answer_in E :=
  rewrite ?run_bind, run_call in E; cbn [respond fst snd] in E.

(** The calls of a run from [w] whose equation is [E], out of its final
    trace. *)
Ltac calls_of E R w :=
  subst R; cbn [fst snd trace logged extended withLock withMessages withStore];
  rewrite <- ?(app_assoc (trace w)), drop_app_length.

(** Every branch of what is left of a run whose equation is [E]. *)
Ltac explore o E :=
  repeat first
    [ progress (rewrite run_bind in E)
    | progress (rewrite run_call in E; cbn [respond fst snd] in E)
    | progress (rewrite run_ret in E)
    | progress (cbn [deref run] in E)
    | match type of E with
      | context [match ?x with _ => _ end] => is_var x; destruct x
      | context [match o ?X ?c ?k with _ => _ end] => destruct (o X c k)
      | context [deref ?p] => is_var p; destruct p
      end ].

Section ClaimHandler.
Context `{Helpers} (o : Oracle) (c : NewBugReporter)
        (message : slackgo.Container) (user : slackgo.User) (value : TakeValue).

Let task : prog unit := new.takeClickedTask c message user value.

(** The guards of the handler, on an item the first fetch brought back:
    a status other than "NEW" and an assignee other than the expected one
    stop it before the update, with an ephemeral error; otherwise the one
    update it makes assigns the item to the acting user. *)
Lemma takeClickedTask_guards (w : World) (profile : slackgo.UserProfile)
    (b : bugzilla.Bug) (cached : bool) :
  let n := length (trace w) in
  let id := tvID value in
  let bzEmail := SlackEmailToBugzilla (nbrConfig c) (slackgo.Email profile) in
  o _ (GetUserProfile (slackgo.userID user) false) n = (Some profile, None) ->
  o _ (GetCachedBug id "") (S n) = (Some b, cached, None) ->
  let calls := callsOf o task w in
  (bugzilla.Status b <> "NEW" ->
   updateBugs calls = []
   /\ ephemeralTexts calls
      = [fmt.Sprintf ("Bug " +:+ new.bugURL +:+ "%v has been moved already to %s")
           [fmt.ArgInt id; fmt.ArgStr (bugzilla.Status b)]])
  /\ (bugzilla.Status b = "NEW" ->
      bugzilla.AssignedTo b <> "" ->
      bugzilla.AssignedTo b <> OldAssignee value ->
      updateBugs calls = []
      /\ ephemeralTexts calls
         = [fmt.Sprintf ("Bug " +:+ new.bugURL +:+ "%v has already been assigned to %s")
              [fmt.ArgInt id; fmt.ArgStr (OldAssignee value)]])
  /\ (bugzilla.Status b = "NEW" ->
      bugzilla.AssignedTo b = "" \/ bugzilla.AssignedTo b = OldAssignee value ->
      updateBugs calls
      = [(id, {| bugzilla.updStatus := "ASSIGNED";
                 bugzilla.updAssignedTo := bzEmail |})]).
Proof.
  intros n id bzEmail Hp Hb calls. subst calls task. unfold callsOf.
  remember (run o (new.takeClickedTask c message user value) w) as R eqn:E.
  unfold new.takeClickedTask in E.
  answer_in E. fold n in E. rewrite Hp in E.
  rewrite run_bind in E. cbn [deref] in E. rewrite run_ret in E.
  fold bzEmail id in E.
  answer_in E.
  replace (length (trace (logged (GetUserProfile (slackgo.userID user) false)
                            (Some profile, None) w))) with (S n) in E
    by (cbn; rewrite length_app; cbn; lia).
  rewrite Hb in E.
  rewrite run_bind in E. cbn [deref] in E. rewrite run_ret in E.
  destruct (String.eqb_spec (bugzilla.Status b) "NEW") as [Hnew | Hnew];
    cbn [negb] in E.
  - split; [congruence |].
    destruct (String.eqb_spec (bugzilla.AssignedTo b) "") as [Ha | Ha];
      cbn [negb andb] in E;
      [| destruct (String.eqb_spec (bugzilla.AssignedTo b) (OldAssignee value))
           as [Ho | Ho]; cbn [negb] in E].
    + split; [congruence |]. intros _ _.
      explore o E; unfold n; calls_of E R w; reflexivity.
    + split; [congruence |]. intros _ _.
      explore o E; unfold n; calls_of E R w; reflexivity.
    + split; [| intros _ [Hc | Hc]; congruence]. intros _ _ _.
      answer_in E. rewrite run_call in E. cbn [respond fst snd] in E.
      unfold n; calls_of E R w. split; reflexivity.
  - split; [| split; congruence]. intros _.
    answer_in E. rewrite run_call in E. cbn [respond fst snd] in E.
    unfold n; calls_of E R w. split; reflexivity.
Qed.

(** After a successful update, a fetch that fails: the confirmation is
    posted when the failed fetch still brought an item back; with the nil
    pointer of a failed fetch the task panics before it posts anything. *)
Lemma takeClickedTask_refetch_error (w : World) (profile : slackgo.UserProfile)
    (b : bugzilla.Bug) (cached cached' : bool) (b' : option bugzilla.Bug)
    (e : error) :
  let n := length (trace w) in
  let id := tvID value in
  let bzEmail := SlackEmailToBugzilla (nbrConfig c) (slackgo.Email profile) in
  let update := {| bugzilla.updStatus := "ASSIGNED";
                   bugzilla.updAssignedTo := bzEmail |} in
  o _ (GetUserProfile (slackgo.userID user) false) n = (Some profile, None) ->
  o _ (GetCachedBug id "") (S n) = (Some b, cached, None) ->
  bugzilla.Status b = "NEW" ->
  bugzilla.AssignedTo b = "" \/ bugzilla.AssignedTo b = OldAssignee value ->
  o _ (UpdateBug id update) (S (S n)) = None ->
  o _ (GetCachedBug id "") (S (S (S n))) = (b', cached', Some e) ->
  let calls := callsOf o task w in
  updateMessageCalls calls = []
  /\ match b' with
     | Some item =>
       (run o task w).1 = Returned tt
       /\ messageChannels calls = [new.tookText bzEmail item]
     | None =>
       (exists v, (run o task w).1 = Panicked v)
       /\ messageChannels calls = []
     end.
Proof.
  intros n id bzEmail update Hp Hb Hnew Hassigned Hu Hb' calls.
  subst calls task. unfold callsOf.
  remember (run o (new.takeClickedTask c message user value) w) as R eqn:E.
  unfold new.takeClickedTask in E.
  answer_in E. fold n in E. rewrite Hp in E.
  rewrite run_bind in E. cbn [deref] in E. rewrite run_ret in E.
  fold bzEmail id in E.
  answer_in E. cbn [trace logged] in E.
  rewrite length_app in E. cbn [length] in E. fold n in E.
  rewrite Nat.add_1_r in E. rewrite Hb in E.
  rewrite run_bind in E. cbn [deref] in E. rewrite run_ret in E.
  rewrite Hnew in E. cbn [String.eqb Ascii.eqb Bool.eqb negb andb] in E.
  assert (Hguard : negb (String.eqb (bugzilla.AssignedTo b) "")
                   && negb (String.eqb (bugzilla.AssignedTo b) (OldAssignee value))
                   = false).
  { destruct Hassigned as [-> | ->]; [reflexivity |].
    rewrite String.eqb_refl. apply andb_false_r. }
  rewrite Hguard in E. fold update in E.
  answer_in E. cbn [trace logged] in E.
  rewrite !length_app in E. cbn [length] in E. fold n in E.
  rewrite !Nat.add_1_r in E. rewrite Hu in E.
  answer_in E. cbn [trace logged] in E.
  rewrite !length_app in E. cbn [length] in E. fold n in E.
  rewrite !Nat.add_1_r in E. rewrite Hb' in E.
  destruct b' as [item |].
  - explore o E.
    repeat match type of E with
           | context [o unit ?k ?m] => destruct (o unit k m)
           end.
    unfold n. calls_of E R w. repeat split.
  - explore o E. unfold n. calls_of E R w. repeat split. eauto.
Qed.

End ClaimHandler.

(* ===================================================================== *)
(** * The sync cycle, call by call                                      *)
(* ===================================================================== *)

Section SyncDetail.
Context `{Helpers} (o : Oracle) (c : NewBugReporter).

Lemma syncPost_full (lastID : Z) (b : bugzilla.Bug) (w : World) :
  exists evs w' ans,
    run o (new.syncPost c lastID b) w
    = (Returned (Z.max lastID (bugzilla.ID b)), w')
    /\ store w' = store w
    /\ messagesLock w' = messagesLock w
    /\ trace w' = trace w ++ evs
    /\ forallb inLoop evs = true
    /\ postCalls evs = [(new.notification c b, ans)]
    /\ entryKey <$> messagesToWatchAndUpdate w'
       = (entryKey <$> messagesToWatchAndUpdate w) ++ registered [b] [ans].
Proof.
  unfold new.syncPost.
  replace (if bugzilla.ID b >? lastID then bugzilla.ID b else lastID)
    with (Z.max lastID (bugzilla.ID b))
    by (destruct (Z.gtb_spec (bugzilla.ID b) lastID); lia).
  rewrite run_bind, run_call. cbn [respond fst snd].
  destruct (o _ (PostMessageChannel (new.notification c b)) (length (trace w)))
    as [[ch ts] [e|]].
  - eexists _, _, _. rewrite run_ret.
    split; [reflexivity |]. split; [reflexivity |]. split; [reflexivity |].
    split; [reflexivity |]. split; [reflexivity |]. split; [reflexivity |].
    cbn. now rewrite app_nil_r.
  - do 3 (rewrite run_bind, run_call; cbn [respond fst snd]).
    rewrite run_ret.
    eexists _, _, _. split; [reflexivity |]. cbn.
    split; [reflexivity |]. split; [reflexivity |].
    split; [rewrite <- !app_assoc; reflexivity |].
    split; [reflexivity |]. split; [reflexivity |].
    now rewrite fmap_app.
Qed.

Lemma registered_cons (b : bugzilla.Bug) (bugs : list bugzilla.Bug)
    (a : string * string * option error)
    (answers : list (string * string * option error)) :
  registered (b :: bugs) (a :: answers)
  = registered [b] [a] ++ registered bugs answers.
Proof. unfold registered. cbn. now destruct a.2. Qed.

Lemma syncLoop_full (bugs : list bugzilla.Bug) (lastID : Z) (w : World) :
  exists evs w',
    run o (forRange bugs (new.syncPost c) lastID) w
    = (Returned (maxID lastID bugs), w')
    /\ store w' = store w
    /\ messagesLock w' = messagesLock w
    /\ trace w' = trace w ++ evs
    /\ forallb inLoop evs = true
    /\ (postCalls evs).*1 = new.notification c <$> bugs
    /\ entryKey <$> messagesToWatchAndUpdate w'
       = (entryKey <$> messagesToWatchAndUpdate w)
         ++ registered bugs (postCalls evs).*2.
Proof.
  revert lastID w. induction bugs as [| b bugs IH]; intros lastID w.
  - exists [], w. rewrite !app_nil_r. repeat split; reflexivity.
  - cbn [forRange]. rewrite run_bind.
    destruct (syncPost_full lastID b w)
      as (evs1 & w1 & ans & -> & Hs1 & Hl1 & Ht1 & Hf1 & Hp1 & Hr1).
    destruct (IH (Z.max lastID (bugzilla.ID b)) w1)
      as (evs2 & w2 & -> & Hs2 & Hl2 & Ht2 & Hf2 & Hp2 & Hr2).
    exists (evs1 ++ evs2), w2. cbn [maxID fold_left].
    split; [reflexivity |]. split; [congruence |]. split; [congruence |].
    split; [rewrite Ht2, Ht1, app_assoc; reflexivity |].
    split; [rewrite forallb_app, Hf1, Hf2; reflexivity |].
    unfold postCalls in *. rewrite omap_app, !fmap_app, Hp1, Hp2.
    split; [reflexivity |].
    rewrite Hr2, Hr1, <- app_assoc. cbn [fmap list_fmap snd app].
    now rewrite (registered_cons b bugs).
Qed.

End SyncDetail.

Section SyncShape.
Context `{Helpers} (o : Oracle) (c : NewBugReporter).

Lemma readCursor_full (s : string) (w : World) :
  run o (new.readCursor (new.stateKey c) s) w
  = (Returned (new.cursorOf s), extended (parseWarning (new.stateKey c) s) w).
Proof.
  unfold new.readCursor, new.cursorOf, parseWarning.
  destruct (String.eqb s ""); [now rewrite extended_nil |].
  destruct (strconv.Atoi s); [now rewrite extended_nil |].
  rewrite run_bind, run_call. cbn [respond fst snd].
  now destruct (o unit _ _).
Qed.

(** A cycle whose read of the store succeeded, call by call: the read,
    the warning of a cursor that does not parse, the scan, what follows
    the scan, and the write of the cursor. *)
Lemma sync_scanned (w : World) :
  (o _ (GetPersistentValue (new.stateKey c)) (length (trace w))).2 = None ->
  let s := default "" (store w !! new.stateKey c) in
  let w' := (run o (new.sync c) w).2 in
  exists bugs serr loop perr,
    let lastID' := match serr with
                   | Some _ => new.cursorOf s
                   | None => maxID (new.cursorOf s) bugs
                   end in
    (run o (new.sync c) w).1
    = Returned (match serr with Some e => Some e | None => perr end)
    /\ callsOf o (new.sync c) w
       = [Called (GetPersistentValue (new.stateKey c)) (s, None)]
         ++ parseWarning (new.stateKey c) s
         ++ [Called (Search (new.getNewBugsQuery (components c) (new.cursorOf s)))
               (bugs, serr)]
         ++ afterScan serr loop
         ++ [Called (SetPersistentValue (new.stateKey c) (strconv.Itoa lastID'))
               perr]
    /\ forallb inLoop loop = true
    /\ (serr = None ->
        (postCalls loop).*1 = new.notification c <$> bugs
        /\ entryKey <$> messagesToWatchAndUpdate w'
           = (entryKey <$> messagesToWatchAndUpdate w)
             ++ registered bugs (postCalls loop).*2)
    /\ (serr <> None ->
        loop = [] /\ messagesToWatchAndUpdate w' = messagesToWatchAndUpdate w)
    /\ messagesLock w' = match serr with
                         | Some _ => messagesLock w
                         | None => false
                         end
    /\ store w' = match perr with
                  | None => <[new.stateKey c := strconv.Itoa lastID']> (store w)
                  | Some _ => store w
                  end.
Proof.
  intros Hr s w'. subst w'. unfold callsOf.
  remember (run o (new.sync c) w) as R eqn:E.
  unfold new.sync in E. rewrite run_bind, run_call in E.
  cbn [respond fst snd] in E. rewrite Hr in E. fold s in E.
  rewrite run_bind, readCursor_full, run_bind in E.
  unfold new.syncBody, new.getNewBugs in E.
  rewrite run_bind, run_call in E. cbn [respond fst snd] in E.
  match type of E with
  | context [o _ (Search ?q) ?n] =>
    destruct (o _ (Search q) n) as [bugs [e|]]
  end.
  - rewrite run_bind, run_call in E. cbn [respond fst snd] in E.
    rewrite run_ret, run_bind, run_call in E. cbn [respond fst snd] in E.
    match type of E with
    | context [o unit ?k ?n] => destruct (o unit k n)
    end.
    exists bugs, (Some e), [].
    match type of E with
    | context [o _ (SetPersistentValue ?k ?v) ?n] =>
      destruct (o _ (SetPersistentValue k v) n) as [pe|]
    end.
    + exists (Some pe). subst R. cbn [fst snd].
      split; [reflexivity |].
      split; [cbn; rewrite <- ?(app_assoc (trace w)), drop_app_length, <- ?app_assoc;
              reflexivity |].
      split; [reflexivity |]. split; [discriminate |].
      split; [intros _; split; reflexivity |]. split; reflexivity.
    + exists None. subst R. cbn [fst snd].
      split; [reflexivity |].
      split; [cbn; rewrite <- ?(app_assoc (trace w)), drop_app_length, <- ?app_assoc;
              reflexivity |].
      split; [reflexivity |]. split; [discriminate |].
      split; [intros _; split; reflexivity |]. split; reflexivity.
  - rewrite run_bind, run_call in E. cbn [respond fst snd] in E.
    rewrite run_defer_call, run_bind in E.
    match type of E with
    | context [run o (forRange bugs (new.syncPost c) ?l) ?w0] =>
      destruct (syncLoop_full o c bugs l w0)
        as (loop & w1 & E1 & Hs & Hl & Ht & Hf & Hp & Hreg)
    end.
    rewrite E1 in E. clear E1. rewrite run_ret in E.
    cbn [respond fst snd] in E.
    rewrite run_bind, run_call in E. cbn [respond fst snd] in E.
    exists bugs, None, loop.
    match type of E with
    | context [o _ (SetPersistentValue ?k ?v) ?n] =>
      destruct (o _ (SetPersistentValue k v) n) as [pe|]
    end.
    + exists (Some pe). subst R. cbn [fst snd].
      split; [reflexivity |].
      split; [cbn; rewrite Ht; cbn;
              rewrite <- ?(app_assoc (trace w)), drop_app_length, <- ?app_assoc;
              reflexivity |].
      split; [exact Hf |].
      split; [intros _; split; [exact Hp | exact Hreg] |].
      split; [congruence |].
      split; [reflexivity | cbn; rewrite Hs; reflexivity].
    + exists None. subst R. cbn [fst snd].
      split; [reflexivity |].
      split; [cbn; rewrite Ht; cbn;
              rewrite <- ?(app_assoc (trace w)), drop_app_length, <- ?app_assoc;
              reflexivity |].
      split; [exact Hf |].
      split; [intros _; split; [exact Hp | exact Hreg] |].
      split; [congruence |].
      split; [reflexivity | cbn; rewrite Hs; reflexivity].
Qed.

End SyncShape.

Section SyncViews.
Context `{Helpers} (o : Oracle) (c : NewBugReporter).

Lemma omap_quiet {A : Type} (f : event -> option A) (p : event -> bool)
    (evs : list event) :
  (forall e, p e = true -> f e = None) ->
  forallb p evs = true -> omap f evs = [].
Proof.
  intros Hf. induction evs as [| e evs IH]; [reflexivity |]. cbn.
  intros [He Hevs]%andb_prop. now rewrite (Hf e He), IH.
Qed.

Lemma inLoop_quiet (loop : list event) :
  forallb inLoop loop = true ->
  cursorReads loop = [] /\ cursorWrites loop = [] /\ scans loop = []
  /\ scanQueries loop = [] /\ reports loop = [].
Proof.
  intros Hl. repeat split; (eapply omap_quiet; [| exact Hl]);
    intros [X e x]; destruct e; try discriminate; reflexivity.
Qed.

Lemma guarded_inLoop (loop rest : list event) :
  forallb inLoop loop = true ->
  guarded true (loop ++ rest) = guarded true rest.
Proof.
  induction loop as [| [X e x] loop IH]; [reflexivity |]. cbn [forallb app].
  intros [He Hl]%andb_prop. specialize (IH Hl).
  destruct e; try discriminate; cbn [guarded andb]; exact IH.
Qed.

(** What the observers read in the calls of a cycle whose read of the
    store succeeded. *)
Lemma sync_views (w : World) :
  (o _ (GetPersistentValue (new.stateKey c)) (length (trace w))).2 = None ->
  let s := default "" (store w !! new.stateKey c) in
  let calls := callsOf o (new.sync c) w in
  let w' := (run o (new.sync c) w).2 in
  exists bugs serr loop perr,
    let lastID' := match serr with
                   | Some _ => new.cursorOf s
                   | None => maxID (new.cursorOf s) bugs
                   end in
    (run o (new.sync c) w).1
    = Returned (match serr with Some e => Some e | None => perr end)
    /\ cursorReads calls = [(new.stateKey c, None)]
    /\ scans calls = [(bugs, serr)]
    /\ scanQueries calls = [new.getNewBugsQuery (components c) (new.cursorOf s)]
    /\ cursorWrites calls = [(new.stateKey c, strconv.Itoa lastID', perr)]
    /\ postCalls calls = postCalls loop
    /\ reports calls
       = reports (parseWarning (new.stateKey c) s)
         ++ match serr with Some _ => ["BuglistFailed"] | None => [] end
    /\ (forall held, guarded held calls = true)
    /\ forallb inLoop loop = true
    /\ (serr = None ->
        (postCalls loop).*1 = new.notification c <$> bugs
        /\ entryKey <$> messagesToWatchAndUpdate w'
           = (entryKey <$> messagesToWatchAndUpdate w)
             ++ registered bugs (postCalls loop).*2)
    /\ (serr <> None ->
        loop = [] /\ messagesToWatchAndUpdate w' = messagesToWatchAndUpdate w)
    /\ messagesLock w' = match serr with
                         | Some _ => messagesLock w
                         | None => false
                         end
    /\ store w' = match perr with
                  | None => <[new.stateKey c := strconv.Itoa lastID']> (store w)
                  | Some _ => store w
                  end.
Proof.
  intros Hr s calls w'. subst calls w'.
  destruct (sync_scanned o c w Hr)
    as (bugs & serr & loop & perr & Hres & Hc & Hl & Hok & Hko & Hlock & Hst).
  fold s in Hc, Hst. exists bugs, serr, loop, perr.
  destruct (inLoop_quiet loop Hl) as (Lr & Lw & Ls & Lq & Lrep).
  rewrite Hc.
  assert (Hpw : forall A (f : event -> option A),
             (forall sev fmt args x, f (Called (Klog sev fmt args) x) = None) ->
             omap f (parseWarning (new.stateKey c) s) = []).
  { intros A f Hf. unfold parseWarning.
    destruct (String.eqb s ""); [reflexivity |].
    destruct (strconv.Atoi s); [reflexivity |]. cbn. now rewrite Hf. }
  split; [exact Hres |].
  unfold cursorReads, cursorWrites, scans, scanQueries, postCalls, reports in *.
  rewrite !omap_app.
  rewrite !(Hpw _ asCursorRead), !(Hpw _ asCursorWrite), !(Hpw _ asScan),
    !(Hpw _ asScanQuery), !(Hpw _ asPostCall) by reflexivity.
  assert (Ha : forall A (f : event -> option A),
             (forall r f0 args x, f (Called (RecorderWarningf r f0 args) x) = None) ->
             f (Called Lock tt) = None -> f (Called Unlock tt) = None ->
             omap f (afterScan serr loop) = omap f loop).
  { intros A f Hrec Hlk Hul. unfold afterScan. destruct serr as [e|].
    - destruct (Hko ltac:(intro; discriminate)) as [-> _]. cbn. now rewrite Hrec.
    - rewrite !omap_app. cbn. rewrite Hlk, Hul. now rewrite app_nil_r. }
  rewrite !(Ha _ asCursorRead), !(Ha _ asCursorWrite), !(Ha _ asScan),
    !(Ha _ asScanQuery), !(Ha _ asPostCall) by reflexivity.
  rewrite Lr, Lw, Ls, Lq. cbn [omap list_omap app asCursorRead asCursorWrite
                                 asScan asScanQuery asPostCall snd].
  rewrite app_nil_r.
  split; [reflexivity |]. split; [reflexivity |]. split; [reflexivity |].
  split; [reflexivity |]. split; [reflexivity |].
  split.
  { cbn [asReport app]. rewrite app_nil_r. f_equal.
    unfold afterScan. destruct serr as [e|]; [reflexivity |].
    rewrite !omap_app, Lrep. reflexivity. }
  split.
  { intros held. cbn [app guarded]. unfold parseWarning, afterScan.
    destruct (String.eqb s ""); [| destruct (strconv.Atoi s)];
      destruct serr as [e|]; cbn [app guarded];
      try (destruct (Hko ltac:(intro; discriminate)) as [-> _]; reflexivity);
      rewrite <- ?app_assoc, guarded_inLoop by assumption; reflexivity. }
  repeat split; assumption || (now apply Hok) || (now apply Hko).
Qed.

End SyncViews.

Section SyncExtras.
Context `{Helpers} (o : Oracle) (c : NewBugReporter).

(** The two ways a cycle goes, by the answer to its read of the store. *)
Lemma sync_read_cases (w : World) :
  (exists e,
      (o _ (GetPersistentValue (new.stateKey c)) (length (trace w))).2 = Some e
      /\ run o (new.sync c) w
         = (Returned (Some e),
            logged (GetPersistentValue (new.stateKey c)) ("", Some e) w)
      /\ callsOf o (new.sync c) w
         = [Called (GetPersistentValue (new.stateKey c)) ("", Some e)])
  \/ (o _ (GetPersistentValue (new.stateKey c)) (length (trace w))).2 = None.
Proof.
  destruct (o _ (GetPersistentValue (new.stateKey c)) (length (trace w))).2
    as [e|] eqn:Hr; [left | now right].
  exists e. pose proof (sync_read_fails o c e w Hr) as E.
  split; [reflexivity |]. split; [exact E |].
  apply callsOf_eq. now rewrite E.
Qed.

(** X1. A cycle whose scan fails returns the error of the scan, reports
    it to the recorder as "BuglistFailed", posts nothing, leaves the
    registry and the lock as they were, and writes the cursor back at the
    value it read. *)
Theorem sync_scan_failure (w : World) (bugs : list bugzilla.Bug) (e : error) :
  let calls := callsOf o (new.sync c) w in
  let w' := (run o (new.sync c) w).2 in
  In (bugs, Some e) (scans calls) ->
  (run o (new.sync c) w).1 = Returned (Some e)
  /\ last (reports calls) = Some "BuglistFailed"
  /\ postCalls calls = []
  /\ messagesToWatchAndUpdate w' = messagesToWatchAndUpdate w
  /\ messagesLock w' = messagesLock w
  /\ cursor c w' = cursor c w.
Proof.
  intros calls w' Hscan. subst calls w'.
  destruct (sync_read_cases w) as [(e' & _ & _ & Hc) | Hr].
  { rewrite Hc in Hscan. destruct Hscan. }
  destruct (sync_views o c w Hr)
    as (bugs' & serr & loop & perr & Hres & _ & Hs & _ & _ & Hp & Hrep & _ & _
        & _ & Hko & Hlock & Hst).
  rewrite Hs in Hscan. destruct Hscan as [[= -> ->] | []].
  destruct (Hko ltac:(intro; discriminate)) as [-> Hm].
  split; [exact Hres |].
  split; [rewrite Hrep; apply last_snoc |].
  split; [rewrite Hp; reflexivity |].
  split; [exact Hm |]. split; [exact Hlock |].
  unfold cursor. rewrite Hst. destruct perr as [pe|]; [reflexivity |].
  rewrite lookup_insert_eq. cbn [default id].
  apply cursorOf_Itoa, cursorOf_inRange.
Qed.

(** X2. In a cycle whose scan succeeded there is one post per scanned
    item, in the order of the scan, each the notification of its item;
    and the registry grows by one entry for each post that went through,
    with the id of the item and the channel and timestamp the post
    returned, and by nothing else. *)
Theorem sync_registers_posted (w : World) (bugs : list bugzilla.Bug) :
  let calls := callsOf o (new.sync c) w in
  let w' := (run o (new.sync c) w).2 in
  In (bugs, None) (scans calls) ->
  (postCalls calls).*1 = new.notification c <$> bugs
  /\ entryKey <$> messagesToWatchAndUpdate w'
     = (entryKey <$> messagesToWatchAndUpdate w)
       ++ registered bugs (postCalls calls).*2.
Proof.
  intros calls w' Hscan. subst calls w'.
  destruct (sync_read_cases w) as [(e' & _ & _ & Hc) | Hr].
  { rewrite Hc in Hscan. destruct Hscan. }
  destruct (sync_views o c w Hr)
    as (bugs' & serr & loop & perr & _ & _ & Hs & _ & _ & Hp & _ & _ & _
        & Hok & _).
  rewrite Hs in Hscan. destruct Hscan as [[= -> ->] | []].
  rewrite Hp. now apply Hok.
Qed.

(** X4. A cycle scans at most once, and what it asks the tracker for is
    the query of the cursor persisted when the cycle starts. *)
Theorem sync_scans_from_cursor (w : World) :
  let calls := callsOf o (new.sync c) w in
  (length (scanQueries calls) <= 1)%nat
  /\ Forall (fun q => q = new.getNewBugsQuery (components c) (cursor c w))
       (scanQueries calls).
Proof.
  intros calls. subst calls.
  destruct (sync_read_cases w) as [(e' & _ & _ & Hc) | Hr].
  { rewrite Hc. split; [cbn; lia | constructor]. }
  destruct (sync_views o c w Hr)
    as (bugs' & serr & loop & perr & _ & _ & _ & Hq & _).
  rewrite Hq. split; [cbn; lia |]. repeat constructor.
Qed.

(** X5. When the stored cursor is not empty and does not parse, a cycle
    that could read it logs a warning, scans as on a first run, with the
    creation-time bound of the last 168 hours, and ends, as every cycle
    that scans, by writing a cursor that parses. *)
Theorem sync_unparsable_cursor (w : World) (s : string) :
  let calls := callsOf o (new.sync c) w in
  store w !! new.stateKey c = Some s ->
  s <> "" ->
  strconv.Atoi s = None ->
  cursorReads calls = [(new.stateKey c, None)] ->
  head (reports calls) = Some "Cannot parse state value for %s: %v"
  /\ (bugzilla.Advanced <$> scanQueries calls)
     = [[{| bugzilla.Field := "creation_ts";
            bugzilla.Op := "greaterthaneq";
            bugzilla.Value := "-168h" |}]]
  /\ exists n perr,
      cursorWrites calls = [(new.stateKey c, strconv.Itoa n, perr)].
Proof.
  intros calls Hs Hne Hparse Hread. subst calls.
  destruct (sync_read_cases w) as [(e' & _ & _ & Hc) | Hr].
  { rewrite Hc in Hread. discriminate. }
  destruct (sync_views o c w Hr)
    as (bugs' & serr & loop & perr & _ & _ & _ & Hq & Hw & _ & Hrep & _).
  rewrite Hs in Hq, Hw, Hrep. cbn [default id] in Hq, Hw, Hrep.
  assert (Hzero : new.cursorOf s = 0).
  { unfold new.cursorOf. rewrite Hparse. now destruct (String.eqb s ""). }
  rewrite Hzero in Hq. rewrite Hq, Hw, Hrep.
  split; [| split; [reflexivity | eauto]].
  unfold parseWarning. rewrite Hparse.
  destruct (String.eqb_spec s ""); [contradiction | reflexivity].
Qed.

(** X6. What one cycle persists, the next resumes from: after a cycle
    whose scan returned [bugs], with ids that fit an [int], and whose
    cursor write succeeded, the query of the next cycle is the query for
    the largest id among the cursor the first cycle started from and the
    ids of [bugs]. *)
Theorem sync_resumes_from_written_cursor (w : World)
    (bugs : list bugzilla.Bug) :
  let calls := callsOf o (new.sync c) w in
  let w1 := (run o (new.sync c) w).2 in
  (forall b, In b bugs -> strconv.inRange (bugzilla.ID b) = true) ->
  In (bugs, None) (scans calls) ->
  (forall k v e, In (k, v, e) (cursorWrites calls) -> e = None) ->
  Forall (fun q => q = new.getNewBugsQuery (components c)
                         (maxID (cursor c w) bugs))
    (scanQueries (callsOf o (new.sync c) w1)).
Proof.
  intros calls w1 Hids Hscan Hwrite. subst calls w1.
  assert (Hcur : cursor c (run o (new.sync c) w).2 = maxID (cursor c w) bugs).
  { destruct (sync_read_cases w) as [(e' & _ & _ & Hc) | Hr].
    { rewrite Hc in Hscan. destruct Hscan. }
    destruct (sync_views o c w Hr)
      as (bugs' & serr & loop & perr & _ & _ & Hs & _ & Hw & _ & _ & _ & _
          & _ & _ & _ & Hst).
    rewrite Hs in Hscan. destruct Hscan as [[= -> ->] | []].
    rewrite Hw in Hwrite.
    assert (perr = None) as -> by (eapply Hwrite; left; reflexivity).
    unfold cursor. rewrite Hst, lookup_insert_eq. cbn [default id].
    apply cursorOf_Itoa, maxID_inRange; [apply cursorOf_inRange | exact Hids]. }
  rewrite <- Hcur.
  destruct (sync_read_cases (run o (new.sync c) w).2) as [(e' & _ & _ & Hc) | Hr].
  { rewrite Hc. constructor. }
  destruct (sync_views o c _ Hr)
    as (bugs' & serr & loop & perr & _ & _ & _ & Hq & _).
  rewrite Hq. repeat constructor.
Qed.

(** X7. The error a cycle returns is the first there is among the error
    of its read of the store, the error of its scan and the error of its
    write of the cursor, in that order: nil when there is none. *)
Theorem sync_returns_first_error (w : World) :
  let calls := callsOf o (new.sync c) w in
  (run o (new.sync c) w).1
  = Returned (firstError ((cursorReads calls).*2 ++ (scans calls).*2
                          ++ (cursorWrites calls).*2)).
Proof.
  intros calls. subst calls.
  destruct (sync_read_cases w) as [(e' & _ & E & Hc) | Hr].
  { rewrite Hc, E. reflexivity. }
  destruct (sync_views o c w Hr)
    as (bugs' & serr & loop & perr & Hres & Hrd & Hs & _ & Hw & _).
  rewrite Hres, Hrd, Hs, Hw. now destruct serr, perr.
Qed.

End SyncExtras.

(* ===================================================================== *)
(** * The reconciliation pass, call by call                             *)
(* ===================================================================== *)

Section PassDetail.
Context `{Helpers} (o : Oracle).

Lemma dropOld_loop_full (ms notTooOld : list message) (w : World) :
  exists sub evs,
    run o (forRange ms new.dropOld notTooOld) w
    = (Returned (notTooOld ++ sub), extended evs w)
    /\ forallb isNow evs = true
    /\ sublist sub ms
    /\ (forall now, (forall n, o _ Now n = now) ->
        sub = List.filter (fun m => negb (new.tooOld now m)) ms).
Proof.
  revert notTooOld w. induction ms as [| m ms IH]; intros acc w.
  - exists [], []. rewrite extended_nil, app_nil_r. repeat split. constructor.
  - cbn [forRange]. rewrite run_bind, dropOld_run.
    set (t := o _ Now (length (trace w))).
    destruct (IH (if new.tooOld t m then acc else acc ++ [m])
                (extended [Called Now t] w))
      as (sub & evs & -> & Hevs & Hsub & Hres).
    exists (if new.tooOld t m then sub else m :: sub), (Called Now t :: evs).
    rewrite extended_app.
    split; [destruct (new.tooOld t m); [| rewrite <- app_assoc]; reflexivity |].
    split; [exact Hevs |].
    split; [destruct (new.tooOld t m); now constructor |].
    intros now Hnow. rewrite (Hres now Hnow). subst t. rewrite Hnow.
    cbn [List.filter]. now destruct (new.tooOld now m).
Qed.

(** One entry of the second loop, by the answer to its fetch. *)
Lemma reconcile_full (messagesToWatch : list message) (m : message) (w : World) :
  let a := o _ (GetCachedBug (ID m) "") (length (trace w)) in
  exists evs,
    run o (new.reconcile messagesToWatch m) w
    = (reconciled a messagesToWatch m, extended evs w)
    /\ forallb inPass evs = true
    /\ fetches evs = [(ID m, a)]
    /\ (edits evs).*1 = option_list (editOf a m).
Proof.
  intros a. subst a. unfold new.reconcile.
  rewrite run_bind, run_call. cbn [respond fst snd].
  set (n := length (trace w)).
  destruct (o _ (GetCachedBug (ID m) "") n) as [[[b|] cached] [e|]];
    unfold reconciled, editOf.
  - rewrite run_bind, run_call. cbn [respond fst snd]. rewrite run_ret.
    rewrite !logged_extended, ?extended_app. eexists.
    split; [reflexivity |]. repeat split.
  - rewrite run_bind. cbn [deref]. rewrite run_ret.
    destruct (String.eqb (bugzilla.Status b) "NEW").
    + rewrite run_ret. rewrite !logged_extended, ?extended_app.
      eexists. split; [reflexivity |]. repeat split.
    + rewrite run_bind, run_call. cbn [respond fst snd].
      rewrite run_bind, run_call. cbn [respond fst snd].
      match goal with
      | |- context [o _ (UpdateMessage ?ch ?t ?opts) ?k] =>
        destruct (o _ (UpdateMessage ch t opts) k) as [[[ch' ts'] txt] [e|]]
      end.
      * rewrite run_bind, run_call. cbn [respond fst snd]. rewrite run_ret.
        rewrite !logged_extended, ?extended_app. eexists.
        split; [reflexivity |]. repeat split.
      * rewrite run_ret. rewrite !logged_extended, ?extended_app.
        eexists. split; [reflexivity |]. repeat split.
  - rewrite run_bind, run_call. cbn [respond fst snd]. rewrite run_ret.
    rewrite !logged_extended, ?extended_app. eexists.
    split; [reflexivity |]. repeat split.
  - rewrite run_bind. cbn [deref run].
    rewrite !logged_extended, ?extended_app. eexists.
    split; [reflexivity |]. repeat split.
Qed.

Lemma reconciled_sublist (a : option bugzilla.Bug * bool * option error)
    (acc l : list message) (m : message) :
  reconciled a acc m = Returned l -> l = acc \/ l = acc ++ [m].
Proof.
  unfold reconciled. destruct a as [[[b|] cached] [e|]];
    try destruct (String.eqb (bugzilla.Status b) "NEW");
    intros [= <-]; auto.
Qed.

Lemma reconciled_kept (a : option bugzilla.Bug * bool * option error)
    (acc : list message) (m : message) :
  faulty (fun _ => a) m = false ->
  reconciled a acc m = Returned (if leftNew a then acc else acc ++ [m]).
Proof.
  unfold reconciled, faulty, leftNew, fetchedStatus.
  destruct a as [[[b|] cached] [e|]];
    try destruct (String.eqb (bugzilla.Status b) "NEW");
    try reflexivity; discriminate.
Qed.

Lemma reconciled_faulty (a : option bugzilla.Bug * bool * option error)
    (acc : list message) (m : message) :
  faulty (fun _ => a) m = true -> exists v, reconciled a acc m = Panicked v.
Proof.
  unfold reconciled, faulty.
  destruct a as [[[b|] cached] [e|]]; try discriminate. eauto.
Qed.

(** The second loop: it keeps a part of the entries in their order; and
    while the tracker answers [fetch], it panics when the fetch of an
    entry is faulty, and otherwise fetches every entry once, keeps those
    whose item has not left "NEW" and edits the messages of the others. *)
Lemma reconcile_loop_full (ms messagesToWatch : list message) (w : World) :
  exists r evs,
    run o (forRange ms new.reconcile messagesToWatch) w = (r, extended evs w)
    /\ forallb inPass evs = true
    /\ (forall l, r = Returned l ->
        exists sub, l = messagesToWatch ++ sub /\ sublist sub ms)
    /\ (forall now fetch, steady o now fetch ->
        if existsb (faulty fetch) ms
        then exists v, r = Panicked v
        else r = Returned (messagesToWatch
                           ++ List.filter (fun m => negb (leftNew (fetch (ID m)))) ms)
             /\ fetches evs = (fun m => (ID m, fetch (ID m))) <$> ms
             /\ (edits evs).*1 = editsOf fetch ms).
Proof.
  revert messagesToWatch w. induction ms as [| m ms IH]; intros acc w.
  - exists (Returned acc), []. rewrite extended_nil. cbn.
    split; [reflexivity |]. split; [reflexivity |]. split.
    + intros l [= <-]. exists []. rewrite app_nil_r.
      split; [reflexivity | constructor].
    + intros now fetch _. rewrite app_nil_r. repeat split.
  - cbn [forRange]. rewrite run_bind.
    destruct (reconcile_full acc m w) as (evs1 & -> & Hevs1 & Hf1 & He1).
    set (a := o _ (GetCachedBug (ID m) "") (length (trace w))) in *.
    destruct (reconciled a acc m) as [acc1 | v] eqn:Hstep.
    + destruct (IH acc1 (extended evs1 w)) as (r & evs & -> & Hevs & Hsub & Hr).
      exists r, (evs1 ++ evs). rewrite extended_app.
      split; [reflexivity |]. split; [now rewrite forallb_app, Hevs1, Hevs |].
      split.
      * intros l Hl. destruct (Hsub l Hl) as (sub & -> & Hs).
        destruct (reconciled_sublist _ _ _ _ Hstep) as [-> | ->].
        -- exists sub. split; [reflexivity | now constructor].
        -- exists (m :: sub). rewrite <- app_assoc.
           split; [reflexivity | now constructor].
      * intros now fetch Hs. specialize (Hr now fetch Hs).
        assert (Ha : a = fetch (ID m)) by apply (proj2 Hs).
        rewrite Ha in *. cbn [existsb].
        destruct (faulty fetch m) eqn:Hfaulty.
        { destruct (reconciled_faulty (fetch (ID m)) acc m Hfaulty) as [v Hv].
          congruence. }
        cbn [orb].
        destruct (existsb (faulty fetch) ms); [exact Hr |].
        destruct Hr as (-> & Hfs & Hed).
        rewrite (reconciled_kept (fetch (ID m)) acc m Hfaulty) in Hstep.
        injection Hstep as <-.
        unfold fetches, edits in *. rewrite !omap_app, fmap_app, Hf1, He1, Hfs, Hed.
        split; [| split; [reflexivity |]].
        -- cbn [List.filter]. destruct (leftNew (fetch (ID m))); cbn [negb];
             [reflexivity | now rewrite <- app_assoc].
        -- unfold editsOf. cbn [omap list_omap].
           now destruct (editOf (fetch (ID m)) m).
    + exists (Panicked v), evs1. split; [reflexivity |]. split; [exact Hevs1 |].
      split; [discriminate |].
      intros now fetch Hs.
      assert (Ha : a = fetch (ID m)) by apply (proj2 Hs).
      rewrite Ha in *. cbn [existsb].
      destruct (faulty fetch m) eqn:Hfaulty; [cbn [orb]; eauto |].
      rewrite (reconciled_kept (fetch (ID m)) acc m Hfaulty) in Hstep.
      discriminate.
Qed.

End PassDetail.

Section PassShape.
Context `{Helpers} (o : Oracle).

(** A pass, call by call: the lock, the first loop over the registry, the
    second loop over what the first kept, and the end of the pass. *)
Lemma pass_full (w : World) :
  let ms := messagesToWatchAndUpdate w in
  let w' := (run o new.updateMessagesPass w).2 in
  exists evs1 evs2 notTooOld r,
    (run o new.updateMessagesPass w).1 = Returned tt
    /\ callsOf o new.updateMessagesPass w
       = [Called Lock tt; Called LoadMessages ms]
         ++ evs1
         ++ [Called (StoreMessages notTooOld) tt; Called LoadMessages notTooOld]
         ++ evs2 ++ passEnd r
    /\ forallb isNow evs1 = true
    /\ forallb inPass evs2 = true
    /\ sublist notTooOld ms
    /\ (forall l, r = Returned l -> sublist l notTooOld)
    /\ messagesToWatchAndUpdate w'
       = match r with Returned l => l | Panicked _ => notTooOld end
    /\ messagesLock w' = false
    /\ store w' = store w
    /\ (forall now fetch, steady o now fetch ->
        notTooOld = List.filter (fun m => negb (new.tooOld now m)) ms
        /\ if existsb (faulty fetch) notTooOld
           then exists v, r = Panicked v
           else r = Returned (List.filter (fun m => negb (leftNew (fetch (ID m))))
                                notTooOld)
                /\ fetches evs2 = (fun m => (ID m, fetch (ID m))) <$> notTooOld
                /\ (edits evs2).*1 = editsOf fetch notTooOld).
Proof.
  intros ms w'. subst w'. unfold callsOf.
  remember (run o new.updateMessagesPass w) as R eqn:E.
  unfold new.updateMessagesPass in E.
  rewrite run_recover, run_bind, run_call in E. cbn [respond fst snd] in E.
  rewrite run_defer_call, run_bind, run_call in E. cbn [respond fst snd] in E.
  rewrite run_bind in E.
  cbn [messagesToWatchAndUpdate logged withLock] in E. fold ms in E.
  match type of E with
  | context [run o (forRange ms new.dropOld []) ?w0] =>
    destruct (dropOld_loop_full o ms [] w0) as (sub & evs1 & E1 & Hevs1 & Hsub & Hres1)
  end.
  rewrite E1 in E. clear E1. cbn [app] in E.
  rewrite run_bind, run_call in E. cbn [respond fst snd] in E.
  rewrite run_bind, run_call in E. cbn [respond fst snd] in E.
  cbn [messagesToWatchAndUpdate logged withMessages extended] in E.
  rewrite run_bind in E.
  match type of E with
  | context [run o (forRange sub new.reconcile []) ?w0] =>
    destruct (reconcile_loop_full o sub [] w0) as (r & evs2 & E2 & Hevs2 & Hl & Hr)
  end.
  rewrite E2 in E. clear E2.
  exists evs1, evs2, sub, r.
  assert (Hrl : forall l, r = Returned l -> sublist l sub).
  { intros l Hrl. destruct (Hl l Hrl) as (sub' & -> & Hs). exact Hs. }
  assert (Hst : forall now fetch, steady o now fetch ->
            sub = List.filter (fun m => negb (new.tooOld now m)) ms
            /\ if existsb (faulty fetch) sub
               then exists v, r = Panicked v
               else r = Returned (List.filter
                                    (fun m => negb (leftNew (fetch (ID m)))) sub)
                    /\ fetches evs2 = (fun m => (ID m, fetch (ID m))) <$> sub
                    /\ (edits evs2).*1 = editsOf fetch sub).
  { intros now fetch Hs. split; [exact (Hres1 now (proj1 Hs)) |].
    exact (Hr now fetch Hs). }
  destruct r as [l | v].
  - rewrite run_bind, run_call in E. cbn [respond fst snd] in E.
    rewrite run_call in E. cbn [respond fst snd] in E.
    repeat match type of E with
           | context [o unit ?k ?n] => destruct (o unit k n)
           end.
    subst R. cbn [fst snd].
    split; [reflexivity |].
    split; [cbn; rewrite <- !app_assoc; apply drop_app_length |].
    repeat (split; [first [assumption | reflexivity] |]). exact Hst.
  - cbn [respond fst snd] in E. rewrite run_call in E. cbn [respond fst snd] in E.
    repeat match type of E with
           | context [o unit ?k ?n] => destruct (o unit k n)
           end.
    subst R. cbn [fst snd].
    split; [reflexivity |].
    split; [cbn; rewrite <- !app_assoc; apply drop_app_length |].
    repeat (split; [first [assumption | reflexivity] |]). exact Hst.
Qed.

End PassShape.

Section PassExtras.
Context `{Helpers} (o : Oracle).

Lemma isNow_quiet (evs : list event) :
  forallb isNow evs = true ->
  fetches evs = [] /\ edits evs = [] /\ reports evs = [].
Proof.
  intros Hl. repeat split; (eapply omap_quiet; [| exact Hl]);
    intros [X e x]; destruct e; try discriminate; reflexivity.
Qed.

Lemma isNow_inPass (evs : list event) :
  forallb isNow evs = true -> forallb inPass evs = true.
Proof.
  induction evs as [| [X e x] evs IH]; [reflexivity |]. cbn.
  intros [He Hevs]%andb_prop. rewrite (IH Hevs), andb_true_r.
  destruct e; try discriminate; reflexivity.
Qed.

Lemma guarded_inPass (held : bool) (evs rest : list event) :
  forallb inPass evs = true ->
  guarded held (evs ++ rest) = guarded held rest.
Proof.
  induction evs as [| [X e x] evs IH]; [reflexivity |]. cbn [forallb app].
  intros [He Hl]%andb_prop. specialize (IH Hl).
  destruct e; try discriminate; cbn [guarded]; exact IH.
Qed.

Lemma no_fault (fetch : Z -> option bugzilla.Bug * bool * option error)
    (ms : list message) :
  fetchesItems fetch -> existsb (faulty fetch) ms = false.
Proof.
  intros Hi. induction ms as [| m ms IH]; [reflexivity |]. cbn. rewrite IH.
  unfold faulty. specialize (Hi (ID m)).
  destruct (fetch (ID m)) as [[[b|] cached] [e|]]; try reflexivity.
  now destruct Hi.
Qed.

Lemma pass_sublist (w : World) :
  (run o new.updateMessagesPass w).1 = Returned tt
  /\ sublist (messagesToWatchAndUpdate (run o new.updateMessagesPass w).2)
             (messagesToWatchAndUpdate w).
Proof.
  destruct (pass_full o w)
    as (evs1 & evs2 & sub & r & Hret & _ & _ & _ & Hsub & Hl & -> & _).
  split; [exact Hret |].
  destruct r as [l | v]; [| exact Hsub].
  etransitivity; [apply Hl; reflexivity | exact Hsub].
Qed.

(** X8. The reconciliation loop never adds an entry to the registry and
    never reorders it: after any number of passes, faults included, what
    is left is a part of what was there at the start, in the same order,
    whatever the clock, the tracker and the chat answer. *)
Theorem updateMessages_keeps_sublist (passes : nat) (w : World) :
  (run o (new.updateMessages passes) w).1 = Returned tt
  /\ sublist (messagesToWatchAndUpdate (run o (new.updateMessages passes) w).2)
             (messagesToWatchAndUpdate w).
Proof.
  revert w. induction passes as [| n IH]; intros w;
    [cbn [new.updateMessages]; rewrite run_ret; split; reflexivity |].
  cbn [new.updateMessages]. rewrite run_bind.
  destruct (pass_sublist w) as [Hret Hsub].
  destruct (run o new.updateMessagesPass w) as [r w1]. cbn [fst snd] in *.
  subst r. cbv iota beta. destruct (IH w1) as [Hret' Hsub'].
  split; [exact Hret' | etransitivity; eassumption].
Qed.

(** X9. Every pass returns: a fault inside it is recovered. It leaves
    [messagesLock] released and the persistent store as it was, whatever
    the clock, the tracker and the chat answer. *)
Theorem pass_always_returns (w : World) :
  let w' := (run o new.updateMessagesPass w).2 in
  (run o new.updateMessagesPass w).1 = Returned tt
  /\ messagesLock w' = false
  /\ store w' = store w.
Proof.
  intros w'. subst w'.
  destruct (pass_full o w)
    as (evs1 & evs2 & sub & r & Hret & _ & _ & _ & _ & _ & _ & Hlock & Hst & _).
  now repeat split.
Qed.

(** X3. The registry is read and written under its lock: in the calls of
    a sync cycle and in the calls of a pass, whatever the answers, every
    read and every write of [messagesToWatchAndUpdate] comes after a
    [Lock] and before the [Unlock] that follows it. A cycle leaves the
    lock released, or as it found it when it stopped before its posts. *)
Theorem registry_access_guarded (c : NewBugReporter) (w : World) (held : bool) :
  guarded held (callsOf o (new.sync c) w) = true
  /\ guarded held (callsOf o new.updateMessagesPass w) = true
  /\ (messagesLock (run o (new.sync c) w).2 = false
      \/ messagesLock (run o (new.sync c) w).2 = messagesLock w).
Proof.
  split; [| split].
  - destruct (sync_read_cases o c w) as [(e' & _ & _ & Hc) | Hr].
    + now rewrite Hc.
    + destruct (sync_views o c w Hr)
        as (bugs' & serr & loop & perr & _ & _ & _ & _ & _ & _ & _ & Hg & _).
      apply Hg.
  - destruct (pass_full o w)
      as (evs1 & evs2 & sub & r & _ & -> & Hevs1 & Hevs2 & _).
    cbn [app guarded andb].
    rewrite guarded_inPass by now apply isNow_inPass.
    cbn [app guarded andb]. rewrite guarded_inPass by assumption.
    now destruct r.
  - destruct (sync_read_cases o c w) as [(e' & _ & -> & _) | Hr].
    + now right.
    + destruct (sync_views o c w Hr)
        as (bugs' & serr & loop & perr & _ & _ & _ & _ & _ & _ & _ & _ & _
            & _ & _ & Hlock & _).
      rewrite Hlock. destruct serr; auto.
Qed.

(** X10. While the clock reads [now] and the tracker answers [fetch], a
    pass that meets an entry, not past retention, whose fetch brings back
    neither an item nor an error, stops there: it returns all the same,
    logs the fault, does not sleep, and leaves in the registry every
    entry not past retention, those whose item left "NEW" included. *)
Theorem pass_fault_recovered (w : World) (now : Z)
    (fetch : Z -> option bugzilla.Bug * bool * option error) (m : message) :
  let calls := callsOf o new.updateMessagesPass w in
  let w' := (run o new.updateMessagesPass w).2 in
  steady o now fetch ->
  In m (messagesToWatchAndUpdate w) ->
  new.tooOld now m = false ->
  faulty fetch m = true ->
  (run o new.updateMessagesPass w).1 = Returned tt
  /\ messagesToWatchAndUpdate w'
     = List.filter (fun m => negb (new.tooOld now m)) (messagesToWatchAndUpdate w)
  /\ heldAtSleep (messagesLock w) calls = []
  /\ last (reports calls) = Some "%v".
Proof.
  intros calls w' Hs Hin Hold Hfaulty. subst calls w'.
  destruct (pass_full o w)
    as (evs1 & evs2 & sub & r & Hret & -> & Hevs1 & Hevs2 & _ & _ & -> & _ & _
        & Hst).
  destruct (Hst now fetch Hs) as [-> Hr].
  assert (Hex : existsb (faulty fetch)
                  (List.filter (fun m => negb (new.tooOld now m))
                     (messagesToWatchAndUpdate w)) = true).
  { apply existsb_exists. exists m. split; [| exact Hfaulty].
    apply filter_In. split; [exact Hin | now rewrite Hold]. }
  rewrite Hex in Hr. destruct Hr as [v ->].
  split; [exact Hret |]. split; [reflexivity |]. split.
  - cbn [app heldAtSleep].
    rewrite heldAtSleep_inPass by now apply isNow_inPass.
    cbn [app heldAtSleep]. now rewrite heldAtSleep_inPass by assumption.
  - rewrite !app_assoc. unfold passEnd, reports.
    change [Called Unlock (); Called (Klog Error "%v" [fmt.ArgStr v]) ()]
      with ([Called Unlock ()] ++ [Called (Klog Error "%v" [fmt.ArgStr v]) ()]).
    rewrite app_assoc, omap_app. cbn [omap list_omap asReport].
    apply last_snoc.
Qed.

(** X11. While the clock reads [now] and the tracker answers [fetch], a
    fetch without error bringing an item back, a pass fetches once each
    entry not past retention, in the order of the registry, and no other;
    and it edits the chat message of those whose item is no longer "NEW",
    showing the item and its assignee, and no other message. *)
Theorem pass_fetches_and_edits (w : World) (now : Z)
    (fetch : Z -> option bugzilla.Bug * bool * option error) :
  let calls := callsOf o new.updateMessagesPass w in
  let notTooOld := List.filter (fun m => negb (new.tooOld now m))
                     (messagesToWatchAndUpdate w) in
  steady o now fetch ->
  fetchesItems fetch ->
  fetches calls = (fun m => (ID m, fetch (ID m))) <$> notTooOld
  /\ (edits calls).*1 = editsOf fetch notTooOld.
Proof.
  intros calls notTooOld Hs Hi. subst calls notTooOld.
  destruct (pass_full o w)
    as (evs1 & evs2 & sub & r & _ & -> & Hevs1 & Hevs2 & _ & _ & _ & _ & _
        & Hst).
  destruct (Hst now fetch Hs) as [-> Hr].
  rewrite (no_fault fetch _ Hi) in Hr. destruct Hr as (-> & Hf & He).
  destruct (isNow_quiet evs1 Hevs1) as (Hf1 & He1 & _).
  unfold fetches, edits in *. rewrite !omap_app, !fmap_app, Hf1, He1, Hf, He.
  cbn. now rewrite !app_nil_r.
Qed.



End PassExtras.

(* ===================================================================== *)
(** * The claim handler, path by path                                   *)
(* ===================================================================== *)

(** Every path of what is left of a run whose equation is [E], the
    comparisons of strings kept as hypotheses. *)
Ltac paths o E :=
  repeat first
    [ progress (rewrite run_bind in E)
    | progress (rewrite run_call in E; cbn [respond fst snd] in E)
    | progress (rewrite run_ret in E)
    | progress (cbn [deref run negb andb] in E)
    | match type of E with
      | context [match ?x with _ => _ end] => is_var x; destruct x
      | context [match o ?X ?c ?k with _ => _ end] => destruct (o X c k)
      | context [deref ?p] => is_var p; destruct p
      | context [String.eqb ?a ?b] => destruct (String.eqb_spec a b)
      end ];
  repeat match type of E with
         | context [o unit ?k ?m] => destruct (o unit k m)
         end.

Section ClaimPaths.
Context `{Helpers} (o : Oracle) (c : NewBugReporter)
        (container : slackgo.Container) (user : slackgo.User)
        (action : slackgo.BlockAction).

Let handler : prog unit := new.takeClicked c container user action.

(** X13. The claim handler takes no lock and reads or writes neither the
    registry nor the persistent store: whatever the answers, and also
    when it panics, it leaves the world as it found it but for the calls
    it made, none of which is on what the goroutines share. *)
Theorem takeClicked_touches_nothing (w : World) :
  (run o handler w).2 = extended (callsOf o handler w) w
  /\ forallb (fun e => negb (isShared e)) (callsOf o handler w) = true.
Proof.
  subst handler. unfold callsOf.
  remember (run o (new.takeClicked c container user action) w) as R eqn:E.
  unfold new.takeClicked in E.
  destruct (json_Unmarshal (slackgo.actionValue action)) as [value | e].
  - unfold new.takeClickedTask in E. paths o E.
    all: subst R; cbn [snd trace logged];
      rewrite <- ?(app_assoc (trace w)), drop_app_length;
      rewrite !logged_extended, ?extended_app; split; reflexivity.
  - paths o E. subst R. cbn [snd trace logged].
    rewrite drop_app_length. split; reflexivity.
Qed.

(** X14. The claim handler updates the item at most once, and only
    after the payload decoded, the profile of the acting user was found,
    and the item was fetched with status "NEW" and an assignee that is
    empty or the one the payload expects; the update then sets the status
    to "ASSIGNED" and the assignee to the tracker account of that user. *)
Theorem takeClicked_update_guarded (w : World) :
  let calls := callsOf o handler w in
  updateBugs calls = []
  \/ exists value profile b cached,
      json_Unmarshal (slackgo.actionValue action) = inl value
      /\ head (profiles calls)
         = Some (slackgo.userID user, (Some profile, None))
      /\ head (fetches calls) = Some (tvID value, (Some b, cached, None))
      /\ bugzilla.Status b = "NEW"
      /\ (bugzilla.AssignedTo b = ""
          \/ bugzilla.AssignedTo b = OldAssignee value)
      /\ updateBugs calls
         = [(tvID value,
             {| bugzilla.updStatus := "ASSIGNED";
                bugzilla.updAssignedTo :=
                  SlackEmailToBugzilla (nbrConfig c) (slackgo.Email profile) |})].
Proof.
  intros calls. subst calls handler. unfold callsOf.
  remember (run o (new.takeClicked c container user action) w) as R eqn:E.
  unfold new.takeClicked in E.
  destruct (json_Unmarshal (slackgo.actionValue action)) as [value | e] eqn:Hj.
  - unfold new.takeClickedTask in E. paths o E.
    all: subst R; cbn [snd trace logged];
      rewrite <- ?(app_assoc (trace w)), drop_app_length;
      first [ left; reflexivity
            | right; eexists _, _, _, _;
              split; [reflexivity |]; split; [reflexivity |];
              split; [reflexivity |]; split; [assumption |];
              split; [auto | reflexivity] ].
  - paths o E. subst R. cbn [snd trace logged].
    rewrite drop_app_length. left. reflexivity.
Qed.

(** X15. When the payload decodes and the handler returns without a
    successful update of the item, the acting user, and nobody else, gets
    exactly one ephemeral message; nothing is posted to the channel and
    no message is edited. *)
Theorem takeClicked_failure_told (w : World) (value : TakeValue) :
  let calls := callsOf o handler w in
  json_Unmarshal (slackgo.actionValue action) = inl value ->
  (run o handler w).1 = Returned tt ->
  Forall (fun a => a <> None) (updateAnswers calls) ->
  ephemeralRecipients calls = [slackgo.userID user]
  /\ messageChannels calls = []
  /\ edits calls = [].
Proof.
  intros calls Hj. subst calls handler. unfold callsOf.
  remember (run o (new.takeClicked c container user action) w) as R eqn:E.
  unfold new.takeClicked in E. rewrite Hj in E.
  unfold new.takeClickedTask in E. paths o E.
  all: subst R; cbn [fst snd trace logged];
    rewrite <- ?(app_assoc (trace w)), drop_app_length;
    intros Hret Hupd; try discriminate Hret;
    first [ repeat split; reflexivity
          | exfalso; cbn in Hupd; apply Forall_cons in Hupd as [Hn _];
            now apply Hn ].
Qed.

(** X16. When the update of the item succeeded and the handler returns,
    no ephemeral message is sent, the only message edited is the
    notification the click came from, and exactly one of two things
    happened: that edit went through and nothing was posted to the
    channel, or it did not and one confirmation was posted there. *)
Theorem takeClicked_success_echo (w : World) :
  let calls := callsOf o handler w in
  (run o handler w).1 = Returned tt ->
  In None (updateAnswers calls) ->
  ephemeralRecipients calls = []
  /\ Forall (fun e => e.1.1 = (slackgo.ChannelID container,
                                slackgo.MessageTs container))
       (edits calls)
  /\ (((edits calls).*2 = [None] /\ messageChannels calls = [])
      \/ ((edits calls).*2 <> [None]
          /\ exists profile b,
              messageChannels calls
              = [new.tookText
                   (SlackEmailToBugzilla (nbrConfig c) (slackgo.Email profile))
                   b])).
Proof.
  intros calls. subst calls handler. unfold callsOf.
  remember (run o (new.takeClicked c container user action) w) as R eqn:E.
  unfold new.takeClicked in E.
  destruct (json_Unmarshal (slackgo.actionValue action)) as [value | e].
  - unfold new.takeClickedTask in E. paths o E.
    all: subst R; cbn [fst snd trace logged];
      rewrite <- ?(app_assoc (trace w)), drop_app_length;
      intros Hret Hupd; try discriminate Hret;
      try (cbn in Hupd; intuition discriminate).
    all: split; [reflexivity |]; split; [repeat constructor |].
    all: first [ left; split; reflexivity
               | right; split; [discriminate | eauto] ].
  - paths o E. subst R. cbn [fst snd trace logged].
    rewrite drop_app_length. intros _ [].
Qed.

(** X24. A handler that returns is silent, sending no message of any
    kind and editing none, exactly when the payload of the click does not
    decode: a click whose payload decodes always shows in the chat,
    whatever the tracker and the chat answer. *)
Theorem takeClicked_silent_iff_undecodable (w : World) :
  let calls := callsOf o handler w in
  (run o handler w).1 = Returned tt ->
  (posts calls = [] /\ messageChannels calls = [] /\ edits calls = [])
  <-> (exists e, json_Unmarshal (slackgo.actionValue action) = inr e).
Proof.
  intros calls. subst calls handler. unfold callsOf.
  remember (run o (new.takeClicked c container user action) w) as R eqn:E.
  unfold new.takeClicked in E.
  destruct (json_Unmarshal (slackgo.actionValue action)) as [value | e].
  - unfold new.takeClickedTask in E. paths o E.
    all: subst R; cbn [fst snd trace logged];
      rewrite <- ?(app_assoc (trace w)), drop_app_length;
      intros Hret; try discriminate Hret.
    all: split; [intros (Hp & Hm & He); cbn in Hp, Hm, He; congruence
                | intros [e' [=]]].
  - paths o E. subst R. cbn [fst snd trace logged].
    rewrite drop_app_length. intros _.
    split; [intros _; now exists e | intros _; repeat split; reflexivity].
Qed.

End ClaimPaths.

(* ===================================================================== *)
(** * The closed-bug report, beyond the empty list                      *)
(* ===================================================================== *)

Section ClosedExtras.
Context `{Helpers} (o : Oracle) (c : closed.BlockersReporter).

Let cfg : config.OperatorConfig := closed.reporterConfig c.
Let closedList : ext (list bugzilla.Bug * option error) :=
  BugList (config.Name (config.Closed (config.Lists cfg)))
          (config.SharerID (config.Closed (config.Lists cfg))).

(** X17. When the list of closed bugs cannot be fetched, [Report] tells
    the recorder "BuglistFailed" and returns the empty string with the
    error, and [sync] returns that error without posting anything. *)
Theorem closed_buglist_error (w : World) (bugs : list bugzilla.Bug) (e : error) :
  o _ closedList (length (trace w)) = (bugs, Some e) ->
  (run o (closed.Report cfg) w).1 = Returned ("", Some e)
  /\ (run o (closed.sync c) w).1 = Returned (Some e)
  /\ reports (callsOf o (closed.sync c) w) = ["BuglistFailed"]
  /\ messageChannels (callsOf o (closed.sync c) w) = [].
Proof.
  intros Ho.
  assert (ER : run o (closed.Report cfg) w
               = (Returned ("", Some e),
                  extended [Called closedList (bugs, Some e);
                            Called (RecorderWarningf "BuglistFailed" e []) tt] w)).
  { unfold closed.Report. rewrite run_bind, run_call. cbn [respond fst snd].
    fold closedList. rewrite Ho. rewrite run_bind, run_call. cbn [respond fst snd].
    destruct (o unit _ _). rewrite run_ret.
    now rewrite !logged_extended, extended_app. }
  assert (ES : run o (closed.sync c) w
               = (Returned (Some e),
                  extended [Called closedList (bugs, Some e);
                            Called (RecorderWarningf "BuglistFailed" e []) tt] w)).
  { unfold closed.sync. fold cfg. now rewrite run_bind, ER. }
  rewrite (callsOf_eq o (closed.sync c) w _ (f_equal (fun r => trace r.2) ES)).
  rewrite ER, ES. repeat split.
Qed.



End ClosedExtras.

Section ClosedGroups.

Lemma groups_lookup_from (bugs : list bugzilla.Bug)
    (m : gmap string (list bugzilla.Bug)) (r : string) :
  fold_left closed.addToResolution bugs m !! r
  = match List.filter (fun b => String.eqb (bugzilla.Resolution b) r) bugs with
    | [] => m !! r
    | g => Some (default [] (m !! r) ++ g)
    end.
Proof.
  revert m. induction bugs as [| b bugs IH]; intros m; [reflexivity |].
  cbn [fold_left List.filter]. rewrite IH. unfold closed.addToResolution.
  destruct (String.eqb_spec (bugzilla.Resolution b) r) as [-> | Hne].
  - rewrite lookup_insert_eq. cbn [default id].
    destruct (List.filter _ bugs); [reflexivity |].
    now rewrite <- app_assoc.
  - now rewrite lookup_insert_ne.
Qed.

(** X19. The grouping loop of [Report] puts under each resolution the
    closed bugs of that resolution, all of them and no other, in the
    order of the list; a resolution no bug has gets no group. *)
Theorem closed_groups_by_resolution (bugs : list bugzilla.Bug) (r : string) :
  fold_left closed.addToResolution bugs ∅ !! r
  = match List.filter (fun b => String.eqb (bugzilla.Resolution b) r) bugs with
    | [] => None
    | g => Some g
    end.
Proof. rewrite groups_lookup_from, lookup_empty. reflexivity. Qed.

Lemma counted_add (m : gmap string (list bugzilla.Bug)) (b : bugzilla.Bug) :
  sum_list_with (fun p : string * list bugzilla.Bug => length p.2)
    (map_to_list (closed.addToResolution m b))
  = S (sum_list_with (fun p : string * list bugzilla.Bug => length p.2)
         (map_to_list m)).
Proof.
  unfold closed.addToResolution.
  destruct (m !! bugzilla.Resolution b) as [g|] eqn:Hm; cbn [default id].
  - rewrite <- insert_delete_eq.
    rewrite map_to_list_insert by apply lookup_delete_eq.
    rewrite <- (map_to_list_delete m _ _ Hm). cbn.
    rewrite length_app. cbn. lia.
  - rewrite map_to_list_insert by exact Hm. reflexivity.
Qed.

(** X20. The groups of [Report] count every closed bug once: the numbers
    of bugs of the lines of the report add up to the number of closed
    bugs. *)
Theorem closed_groups_count_all (bugs : list bugzilla.Bug) :
  sum_list_with (fun p : string * list bugzilla.Bug => length p.2)
    (map_to_list (fold_left closed.addToResolution bugs ∅))
  = length bugs.
Proof.
  assert (Hgen : forall m,
             sum_list_with (fun p : string * list bugzilla.Bug => length p.2)
               (map_to_list (fold_left closed.addToResolution bugs m))
             = (length bugs
                + sum_list_with (fun p : string * list bugzilla.Bug => length p.2)
                    (map_to_list m))%nat).
  { induction bugs as [| b bugs IH]; intros m; [reflexivity |].
    cbn [fold_left length]. rewrite IH, counted_add. lia. }
  rewrite Hgen, map_to_list_empty. cbn. lia.
Qed.

End ClosedGroups.

(* ===================================================================== *)
(** * The weekly report and the keys of a reporter                      *)
(* ===================================================================== *)

Section WeeklyReport.
Context `{Helpers} (o : Oracle).

Lemma reportLoop_from (total i : Z) (newBugs : list bugzilla.Bug)
    (lines : list string) :
  0 <= i <= 21 ->
  new.reportLoop total i newBugs lines
  = lines
    ++ (new.reportItem <$> take (Z.to_nat (22 - i)) newBugs)
    ++ (if (Z.to_nat (22 - i) <=? length newBugs)%nat
        then [new.reportMore total] else []).
Proof.
  revert i lines. induction newBugs as [| b rest IH]; intros i lines Hi.
  - cbn [new.reportLoop]. rewrite take_nil.
    replace (Z.to_nat (22 - i) <=? length (@nil bugzilla.Bug))%nat with false
      by (symmetry; apply Nat.leb_gt; cbn; lia).
    now rewrite !app_nil_r.
  - cbn [new.reportLoop].
    replace (Z.to_nat (22 - i)) with (S (Z.to_nat (22 - (i + 1)))) by lia.
    cbn [take fmap list_fmap length Nat.leb].
    destruct (Z.gtb_spec i 20) as [Hlast | Hmore].
    + replace (Z.to_nat (22 - (i + 1))) with 0%nat by lia.
      rewrite take_0. cbn. now rewrite <- app_assoc.
    + rewrite IH by lia. now rewrite <- app_assoc.
Qed.

(** X21. When its scan succeeds, [Report] lists the first 22 items of
    the scan under its two header lines and no more than 22; from 22
    items on it ends with one more line, which announces the number of
    items less 20. *)
Theorem new_Report_lists_22 (components : list string) (w : World)
    (newBugs : list bugzilla.Bug) :
  o _ (Search (new.getNewBugsQuery components 0)) (length (trace w))
  = (newBugs, None) ->
  (run o (new.Report components) w).1
  = Returned
      (strings.Join
         (new.reportHeader
          ++ (new.reportItem <$> take 22 newBugs)
          ++ (if (22 <=? length newBugs)%nat
              then [new.reportMore (Z.of_nat (length newBugs))] else []))
         (String (ascii_of_nat 10) ""),
       None).
Proof.
  intros Ho. unfold new.Report, new.getNewBugs.
  rewrite run_bind, run_call. cbn [respond fst snd]. rewrite Ho, run_ret.
  cbn [fst]. now rewrite reportLoop_from by lia.
Qed.

(** X22. [Report] makes one call, a scan, and that scan is the one of a
    first run, bounded by creation time, whatever cursor is persisted: it
    reads no cursor, writes none and tells nobody of a failure; when the
    scan fails it returns the empty string and the error of the scan. *)
Theorem new_Report_scans_last_week (components : list string) (w : World) :
  let calls := callsOf o (new.Report components) w in
  (run o (new.Report components) w).2 = extended calls w
  /\ (bugzilla.Advanced <$> scanQueries calls)
     = [[{| bugzilla.Field := "creation_ts";
            bugzilla.Op := "greaterthaneq";
            bugzilla.Value := "-168h" |}]]
  /\ length calls = 1%nat
  /\ (forall e, In (Some e) (scans calls).*2 ->
      (run o (new.Report components) w).1 = Returned ("", Some e)).
Proof.
  intros calls. subst calls. unfold callsOf.
  remember (run o (new.Report components) w) as R eqn:E.
  unfold new.Report, new.getNewBugs in E.
  rewrite run_bind, run_call in E. cbn [respond fst snd] in E.
  match type of E with
  | context [o _ (Search ?q) ?n] => destruct (o _ (Search q) n) as [bugs [e|]]
  end; rewrite run_ret in E; subst R; cbn [fst snd trace logged];
    rewrite drop_app_length; repeat split.
  - now intros e' [[= ->] | []].
  - intros e' [[=] | []].
Qed.

End WeeklyReport.

Section Keys.

Lemma append_assoc (s1 s2 s3 : string) :
  (s1 +:+ s2) +:+ s3 = s1 +:+ s2 +:+ s3.
Proof.
  induction s1 as [| a s1 IH]; [reflexivity |].
  change (String a ((s1 +:+ s2) +:+ s3) = String a (s1 +:+ s2 +:+ s3)).
  now f_equal.
Qed.

Lemma Join_merge (xs ys : list string) (a b : string) :
  strings.Join (xs ++ a :: b :: ys) "-"
  = strings.Join (xs ++ (a +:+ "-" +:+ b) :: ys) "-".
Proof.
  induction xs as [| x xs IH].
  - cbn [app strings.Join]. destruct ys; [reflexivity |].
    now rewrite !append_assoc.
  - cbn [app]. cbn [strings.Join]. rewrite IH.
    destruct xs; cbn [app]; reflexivity.
Qed.

(** X23. The key of the persisted cursor does not tell a component
    whose name contains a dash from two components: a reporter for
    components [a] and [b] and a reporter for the one component [a-b], the
    other components being the same, read and write the same cursor. *)
Theorem stateKey_merges_dashes (cfg : config.OperatorConfig)
    (id1 id2 : string) (xs ys : list string) (a b : string) :
  new.stateKey {| nbrConfig := cfg; components := xs ++ a :: b :: ys;
                  takeBlockerID := id1 |}
  = new.stateKey {| nbrConfig := cfg;
                    components := xs ++ (a +:+ "-" +:+ b) :: ys;
                    takeBlockerID := id2 |}.
Proof. unfold new.stateKey. cbn [components]. now rewrite Join_merge. Qed.

End Keys.

(* ===================================================================== *)
(** * Concrete runs                                                     *)
(* ===================================================================== *)

#[local] Existing Instance sample.helpers.

(** The cursor is at 100, the scan returns items 101 and 103 and every
    post fails: the cycle still leaves the cursor at 103. *)
Lemma sync_cursor_advances_witness :
  goInts sample.postsFail
  /\ cursor sample.reporter
       (run sample.postsFail (new.sync sample.reporter) sample.world100).2 = 103.
Proof.
  assert (Hg : goInts sample.postsFail).
  { intros q n b [<- | [<- | []]]; reflexivity. }
  split; [exact Hg |].
  refine (proj1 (proj2 (sync_cursor_advances (H := sample.helpers)
                          sample.postsFail sample.reporter sample.world100 Hg))
            [sample.bug 101 "NEW" ""; sample.bug 103 "NEW" ""] 103 _ _ _ _).
  - vm_compute. left. reflexivity.
  - intros k v e Hin. vm_compute in Hin.
    destruct Hin as [[= _ _ <-] | []]. reflexivity.
  - split.
    + exists (sample.bug 103 "NEW" ""). split; [right; left |]; reflexivity.
    + intros b [<- | [<- | []]]; vm_compute; discriminate.
  - vm_compute. discriminate.
Defined.

(** C1 as stated fails. When the store cannot be read the cycle returns
    the error of the read at once and attempts no write of the cursor; and
    when the write of the cursor fails after a scan that returned item
    101, the persisted cursor is still 100. *)
Lemma sync_read_failure_skips_cursor_write :
  ((run sample.storeDown (new.sync sample.reporter) sample.world100).1
   = Returned (Some "connection refused")
   /\ cursorWrites
        (callsOf sample.storeDown (new.sync sample.reporter) sample.world100) = [])
  /\ (scans (callsOf sample.writeFails (new.sync sample.reporter) sample.world100)
      = [([sample.bug 101 "NEW" ""], None)]
      /\ cursor sample.reporter
           (run sample.writeFails (new.sync sample.reporter) sample.world100).2
         = 100).
Proof. repeat split. Qed.

(** The scan succeeds, the write of the cursor fails with "disk full":
    the write is the last call and its error is what the cycle returns. *)
Lemma sync_persists_cursor_witness :
  scans (callsOf sample.writeFails (new.sync sample.reporter) sample.world100) <> []
  /\ (run sample.writeFails (new.sync sample.reporter) sample.world100).1
     = Returned (Some "disk full").
Proof.
  assert (Hs : scans (callsOf sample.writeFails (new.sync sample.reporter)
                        sample.world100) <> [])
    by (vm_compute; discriminate).
  split; [exact Hs |].
  refine (proj2 (sync_persists_cursor (H := sample.helpers)
                   sample.writeFails sample.reporter sample.world100 Hs)
            [sample.bug 101 "NEW" ""] (new.stateKey sample.reporter) "101"
            "disk full" _ _).
  - vm_compute. left. reflexivity.
  - vm_compute. left. reflexivity.
Defined.

(** Two cycles in a row from cursor 100 with nothing new in the tracker. *)
Lemma sync_twice_no_new_items_witness :
  cursor sample.reporter
    (cycles sample.quiet sample.reporter 2 sample.world100) = 100
  /\ messagesToWatchAndUpdate
       (cycles sample.quiet sample.reporter 2 sample.world100) = [].
Proof.
  pose proof (sync_twice_no_new_items (H := sample.helpers)
                sample.quiet sample.reporter sample.world100) as Hw.
  cbv zeta in Hw.
  assert (Hnone : forall bugs serr,
             In (bugs, serr)
                (scans (callsOf sample.quiet (new.sync sample.reporter)
                          (run sample.quiet (new.sync sample.reporter)
                             sample.world100).2)) ->
             bugs = []).
  { intros bugs serr Hin. vm_compute in Hin.
    destruct Hin as [[= <- _] | []]. reflexivity. }
  destruct (Hw Hnone) as [Hc Hm]. cbn [cycles].
  rewrite Hc, Hm. split; reflexivity.
Defined.

(** The registry holds a closed item, a new one, one whose fetch fails
    and a new one posted 31 days ago; no chat edit goes through. The
    closed item is removed all the same. *)
Lemma reconciliation_removes_witness :
  steady sample.reconciling sample.rightNow sample.fetched
  /\ fetchesItems sample.fetched
  /\ ~ In (sample.entry 101 time.Hour)
         (messagesToWatchAndUpdate
            (run sample.reconciling new.updateMessagesPass sample.watching).2).
Proof.
  assert (Hs : steady sample.reconciling sample.rightNow sample.fetched)
    by (split; intros; reflexivity).
  assert (Hi : fetchesItems sample.fetched).
  { intros id. unfold sample.fetched.
    destruct (id =? 101); [discriminate |].
    destruct (id =? 103); discriminate. }
  split; [exact Hs |]. split; [exact Hi |].
  apply (proj2 (proj2 (reconciliation_removes sample.reconciling sample.watching
                         sample.rightNow sample.fetched Hs Hi))
           (sample.entry 101 time.Hour)).
  - left. reflexivity.
  - left. reflexivity.
Defined.

(** What that pass leaves, and how it ends. *)
Example reconciliation_pass_example :
  messagesToWatchAndUpdate
    (run sample.reconciling new.updateMessagesPass sample.watching).2
  = [sample.entry 103 time.Hour; sample.entry 105 time.Hour]
  /\ heldAtSleep false
       (callsOf sample.reconciling new.updateMessagesPass sample.watching)
     = [true].
Proof. split; reflexivity. Qed.


(** The closed-bug list is empty: nothing is reported, nothing is posted. *)
Lemma closed_report_empty_witness :
  (run sample.quiet
     (closed.sync {| closed.reporterConfig := nbrConfig sample.reporter |})
     sample.emptyWorld).1 = Returned None
  /\ messageChannels
       (callsOf sample.quiet
          (closed.sync {| closed.reporterConfig := nbrConfig sample.reporter |})
          sample.emptyWorld) = [].
Proof.
  pose proof (closed_report_empty sample.quiet
                {| closed.reporterConfig := nbrConfig sample.reporter |}
                sample.emptyWorld eq_refl) as (_ & Hs & _ & Hm).
  split; [exact Hs | exact Hm].
Defined.

(** C6 fails on the code. The cursor is at 100, the scan returns items
    101 and 103 and both posts fail with "rate limited": the cycle returns
    no error, and neither the recorder nor the log hears of the failures. *)
Theorem sync_drops_post_failures :
  let calls := callsOf sample.postsFail (new.sync sample.reporter) sample.world100 in
  (posts calls).*2 = [Some "rate limited"; Some "rate limited"]
  /\ (run sample.postsFail (new.sync sample.reporter) sample.world100).1
     = Returned None
  /\ reports calls = [].
Proof. repeat split. Qed.

(** C2 fails on the code. Item 103 is new and assigned to alice, the
    button was rendered when it was assigned to bob: no update is made,
    and the ephemeral error names bob, the assignee of the payload, not
    alice, the assignee the item has. *)
Theorem takeClicked_names_payload_assignee :
  let calls := callsOf sample.takenByAlice
                 (new.takeClicked sample.reporter sample.notice sample.clicker
                    sample.click)
                 sample.emptyWorld in
  updateBugs calls = []
  /\ ephemeralTexts calls
     = ["Bug https://bugzilla.redhat.com/show_bug.cgi?id=103 has already been assigned to bob@example.com"].
Proof. split; reflexivity. Qed.

(** C8 fails on the code. The update of item 103 succeeds and the fetch
    after it returns no item and an error: the task panics on the item it
    did not get, and no confirmation is posted. *)
Theorem takeClicked_refetch_failure_panics :
  let task := new.takeClicked sample.reporter sample.notice sample.clicker
                sample.click in
  let calls := callsOf sample.refetchFails task sample.emptyWorld in
  length (updateBugs calls) = 1%nat
  /\ (run sample.refetchFails task sample.emptyWorld).1
     = Panicked "runtime error: invalid memory address or nil pointer dereference"
  /\ messageChannels calls = []
  /\ updateMessageCalls calls = [].
Proof. repeat split. Qed.

(** The example of the specification. The cursor is at 100 and the scan
    returns items 101 and 103: two notifications are posted, two entries
    registered, and the cursor is persisted as 103. In a later pass item
    101 is found closed and its entry removed, item 103 is still new and
    its entry kept. *)
Example sync_then_reconcile_example :
  let w1 := (run sample.twoNew (new.sync sample.reporter) sample.world100).2 in
  let w2 := (run sample.reconciling new.updateMessagesPass w1).2 in
  length (posts (trace w1)) = 2%nat
  /\ ID <$> messagesToWatchAndUpdate w1 = [101; 103]
  /\ store w1 !! new.stateKey sample.reporter = Some "103"
  /\ updateMessageCalls (trace w2) = [("C024", "1700000000.000100")]
  /\ ID <$> messagesToWatchAndUpdate w2 = [103].
Proof. repeat split. Qed.

(** What [strconv.Atoi] takes and what it refuses. *)
Example Atoi_examples :
  strconv.Atoi "103" = Some 103
  /\ strconv.Atoi "+7" = Some 7
  /\ strconv.Atoi "-0" = Some 0
  /\ strconv.Atoi "" = None
  /\ strconv.Atoi "-" = None
  /\ strconv.Atoi "12a" = None
  /\ strconv.Atoi "9223372036854775807" = Some strconv.MaxInt
  /\ strconv.Atoi "9223372036854775808" = None.
Proof. repeat split. Qed.

(** The cursor is at 100 and the tracker cannot be searched: the cycle
    returns the error of the scan and the cursor stays at 100. *)
Lemma sync_scan_failure_witness :
  In ([], Some "tracker down")
     (scans (callsOf sample.scanFails (new.sync sample.reporter) sample.world100))
  /\ (run sample.scanFails (new.sync sample.reporter) sample.world100).1
     = Returned (Some "tracker down")
  /\ postCalls (callsOf sample.scanFails (new.sync sample.reporter) sample.world100)
     = []
  /\ cursor sample.reporter
       (run sample.scanFails (new.sync sample.reporter) sample.world100).2
     = 100.
Proof.
  assert (Hin : In ([], Some "tracker down")
                   (scans (callsOf sample.scanFails (new.sync sample.reporter)
                             sample.world100)))
    by (vm_compute; left; reflexivity).
  split; [exact Hin |].
  pose proof (sync_scan_failure (H := sample.helpers) sample.scanFails
                sample.reporter sample.world100 [] "tracker down") as Hw.
  cbv zeta in Hw. destruct (Hw Hin) as (Hr & _ & Hp & _ & _ & Hc).
  split; [exact Hr |]. split; [exact Hp |]. rewrite Hc. reflexivity.
Defined.

(** The cursor is at 100, the scan returns items 101 and 103 and both
    posts go through: two entries are registered, for 101 and 103. *)
Lemma sync_registers_posted_witness :
  let bugs := [sample.bug 101 "NEW" ""; sample.bug 103 "NEW" ""] in
  In (bugs, None)
     (scans (callsOf sample.twoNew (new.sync sample.reporter) sample.world100))
  /\ entryKey <$> messagesToWatchAndUpdate
                    (run sample.twoNew (new.sync sample.reporter) sample.world100).2
     = [(101, "C024", "1700000000.000100"); (103, "C024", "1700000000.000100")].
Proof.
  intros bugs.
  assert (Hin : In (bugs, None)
                   (scans (callsOf sample.twoNew (new.sync sample.reporter)
                             sample.world100)))
    by (vm_compute; left; reflexivity).
  split; [exact Hin |].
  pose proof (sync_registers_posted (H := sample.helpers) sample.twoNew
                sample.reporter sample.world100 bugs) as Hw.
  cbv zeta in Hw. destruct (Hw Hin) as [_ Hreg].
  rewrite Hreg. reflexivity.
Defined.

(** The stored cursor is "abc": the cycle warns, scans the last 168 hours
    and writes the cursor 0. *)
Lemma sync_unparsable_cursor_witness :
  store sample.garbled !! new.stateKey sample.reporter = Some "abc"
  /\ strconv.Atoi "abc" = None
  /\ cursorReads (callsOf sample.quiet (new.sync sample.reporter) sample.garbled)
     = [(new.stateKey sample.reporter, None)]
  /\ head (reports (callsOf sample.quiet (new.sync sample.reporter) sample.garbled))
     = Some "Cannot parse state value for %s: %v"
  /\ exists n perr,
       cursorWrites (callsOf sample.quiet (new.sync sample.reporter) sample.garbled)
       = [(new.stateKey sample.reporter, strconv.Itoa n, perr)].
Proof.
  assert (Hs : store sample.garbled !! new.stateKey sample.reporter = Some "abc")
    by reflexivity.
  assert (Ha : strconv.Atoi "abc" = None) by reflexivity.
  assert (Hr : cursorReads (callsOf sample.quiet (new.sync sample.reporter)
                              sample.garbled)
               = [(new.stateKey sample.reporter, None)]) by reflexivity.
  split; [exact Hs |]. split; [exact Ha |]. split; [exact Hr |].
  pose proof (sync_unparsable_cursor (H := sample.helpers) sample.quiet
                sample.reporter sample.garbled "abc") as Hw.
  cbv zeta in Hw.
  destruct (Hw Hs ltac:(discriminate) Ha Hr) as (Hwarn & _ & Hwr).
  split; [exact Hwarn | exact Hwr].
Defined.

(** After a cycle from cursor 100 whose scan returned items 101 and 103,
    the next cycle asks for the items after 103. *)
Lemma sync_resumes_from_written_cursor_witness :
  let bugs := [sample.bug 101 "NEW" ""; sample.bug 103 "NEW" ""] in
  let w1 := (run sample.twoNew (new.sync sample.reporter) sample.world100).2 in
  (forall b, In b bugs -> strconv.inRange (bugzilla.ID b) = true)
  /\ In (bugs, None)
        (scans (callsOf sample.twoNew (new.sync sample.reporter) sample.world100))
  /\ Forall (fun q => q = new.getNewBugsQuery ["etcd"] 103)
       (scanQueries (callsOf sample.twoNew (new.sync sample.reporter) w1)).
Proof.
  intros bugs w1.
  assert (Hfit : forall b, In b bugs -> strconv.inRange (bugzilla.ID b) = true)
    by (intros b [<- | [<- | []]]; reflexivity).
  assert (Hin : In (bugs, None)
                   (scans (callsOf sample.twoNew (new.sync sample.reporter)
                             sample.world100)))
    by (vm_compute; left; reflexivity).
  split; [exact Hfit |]. split; [exact Hin |].
  pose proof (sync_resumes_from_written_cursor (H := sample.helpers) sample.twoNew
                sample.reporter sample.world100 bugs) as Hw.
  cbv zeta in Hw. apply (Hw Hfit Hin).
  intros k v e Hk. vm_compute in Hk.
  destruct Hk as [[= _ _ <-] | []]. reflexivity.
Defined.

(** The registry holds a closed item, a new one, one whose fetch brings
    back neither an item nor an error, and a new one posted 31 days ago:
    the pass returns, and only the entry past retention is gone. *)
Lemma pass_fault_recovered_witness :
  steady sample.haunted sample.rightNow sample.vanished
  /\ In (sample.entry 105 time.Hour) (messagesToWatchAndUpdate sample.watching)
  /\ new.tooOld sample.rightNow (sample.entry 105 time.Hour) = false
  /\ faulty sample.vanished (sample.entry 105 time.Hour) = true
  /\ (run sample.haunted new.updateMessagesPass sample.watching).1 = Returned tt
  /\ messagesToWatchAndUpdate
       (run sample.haunted new.updateMessagesPass sample.watching).2
     = [sample.entry 101 time.Hour; sample.entry 103 time.Hour;
        sample.entry 105 time.Hour].
Proof.
  assert (Hs : steady sample.haunted sample.rightNow sample.vanished)
    by (split; intros; reflexivity).
  assert (Hin : In (sample.entry 105 time.Hour)
                   (messagesToWatchAndUpdate sample.watching))
    by (right; right; left; reflexivity).
  assert (Hold : new.tooOld sample.rightNow (sample.entry 105 time.Hour) = false)
    by reflexivity.
  assert (Hf : faulty sample.vanished (sample.entry 105 time.Hour) = true)
    by reflexivity.
  split; [exact Hs |]. split; [exact Hin |]. split; [exact Hold |].
  split; [exact Hf |].
  pose proof (pass_fault_recovered (H := sample.helpers) sample.haunted
                sample.watching sample.rightNow sample.vanished
                (sample.entry 105 time.Hour)) as Hw.
  cbv zeta in Hw. destruct (Hw Hs Hin Hold Hf) as (Hret & Hleft & _ & _).
  split; [exact Hret |]. rewrite Hleft. reflexivity.
Defined.

(** The tracker of the sample pass answers every fetch it does not fail
    with an item. *)
Lemma fetched_fetchesItems : fetchesItems sample.fetched.
Proof.
  intros id. unfold sample.fetched.
  destruct (id =? 101); [discriminate |].
  destruct (id =? 103); discriminate.
Defined.

(** The registry holds entries for items 101, 103, 105 and one for 103
    posted 31 days ago: the pass fetches 101, 103 and 105, and edits the
    message of item 101, which was closed. *)
Lemma pass_fetches_and_edits_witness :
  steady sample.reconciling sample.rightNow sample.fetched
  /\ fetchesItems sample.fetched
  /\ (fetches (callsOf sample.reconciling new.updateMessagesPass sample.watching)).*1
     = [101; 103; 105]
  /\ length (edits (callsOf sample.reconciling new.updateMessagesPass
                      sample.watching)) = 1%nat.
Proof.
  assert (Hs : steady sample.reconciling sample.rightNow sample.fetched)
    by (split; intros; reflexivity).
  split; [exact Hs |]. split; [exact fetched_fetchesItems |].
  pose proof (pass_fetches_and_edits (H := sample.helpers) sample.reconciling
                sample.watching sample.rightNow sample.fetched) as Hw.
  cbv zeta in Hw. destruct (Hw Hs fetched_fetchesItems) as [Hfetch Hedit].
  split; [rewrite Hfetch; reflexivity |].
  rewrite <- (length_fmap fst), Hedit. reflexivity.
Defined.


(** Item 103 is assigned to alice and the payload expects bob: the
    handler returns without an update, and tells the user who clicked. *)
Lemma takeClicked_failure_told_witness :
  let task := new.takeClicked sample.reporter sample.notice sample.clicker
                sample.click in
  json_Unmarshal (slackgo.actionValue sample.click)
  = inl {| tvID := 103; OldAssignee := "bob@example.com" |}
  /\ (run sample.takenByAlice task sample.emptyWorld).1 = Returned tt
  /\ Forall (fun a => a <> None)
       (updateAnswers (callsOf sample.takenByAlice task sample.emptyWorld))
  /\ ephemeralRecipients (callsOf sample.takenByAlice task sample.emptyWorld)
     = ["U07"]
  /\ messageChannels (callsOf sample.takenByAlice task sample.emptyWorld) = []
  /\ edits (callsOf sample.takenByAlice task sample.emptyWorld) = [].
Proof.
  intros task.
  assert (Hj : json_Unmarshal (slackgo.actionValue sample.click)
               = inl {| tvID := 103; OldAssignee := "bob@example.com" |})
    by reflexivity.
  assert (Hr : (run sample.takenByAlice task sample.emptyWorld).1 = Returned tt)
    by reflexivity.
  assert (Hu : Forall (fun a : option error => a <> None)
                 (updateAnswers (callsOf sample.takenByAlice task sample.emptyWorld)))
    by (vm_compute; constructor).
  split; [exact Hj |]. split; [exact Hr |]. split; [exact Hu |].
  pose proof (takeClicked_failure_told (H := sample.helpers) sample.takenByAlice
                sample.reporter sample.notice sample.clicker sample.click
                sample.emptyWorld
                {| tvID := 103; OldAssignee := "bob@example.com" |}) as Hw.
  cbv zeta in Hw. exact (Hw Hj Hr Hu).
Defined.

(** Item 103 is new and assigned to bob, as the payload expects, and
    every call succeeds: the notification is edited, nothing is posted. *)
Lemma takeClicked_success_echo_witness :
  let task := new.takeClicked sample.reporter sample.notice sample.clicker
                sample.click in
  (run sample.claimable task sample.emptyWorld).1 = Returned tt
  /\ In None (updateAnswers (callsOf sample.claimable task sample.emptyWorld))
  /\ ephemeralRecipients (callsOf sample.claimable task sample.emptyWorld) = []
  /\ Forall (fun e => e.1.1 = ("C024", "1700000000.000100"))
       (edits (callsOf sample.claimable task sample.emptyWorld)).
Proof.
  intros task.
  assert (Hr : (run sample.claimable task sample.emptyWorld).1 = Returned tt)
    by reflexivity.
  assert (Hu : In None (updateAnswers
                          (callsOf sample.claimable task sample.emptyWorld)))
    by (vm_compute; left; reflexivity).
  split; [exact Hr |]. split; [exact Hu |].
  pose proof (takeClicked_success_echo (H := sample.helpers) sample.claimable
                sample.reporter sample.notice sample.clicker sample.click
                sample.emptyWorld) as Hw.
  cbv zeta in Hw. destruct (Hw Hr Hu) as (He & Hed & _).
  split; [exact He | exact Hed].
Defined.

(** The list of closed bugs cannot be fetched: the cycle returns the
    error and posts nothing. *)
Lemma closed_buglist_error_witness :
  (run sample.listDown (closed.sync sample.closedReporter) sample.emptyWorld).1
  = Returned (Some "tracker down")
  /\ reports (callsOf sample.listDown (closed.sync sample.closedReporter)
                sample.emptyWorld) = ["BuglistFailed"]
  /\ messageChannels (callsOf sample.listDown (closed.sync sample.closedReporter)
                        sample.emptyWorld) = [].
Proof.
  pose proof (closed_buglist_error (H := sample.helpers) sample.listDown
                sample.closedReporter sample.emptyWorld [] "tracker down" eq_refl)
    as (_ & Hs & Hr & Hm).
  split; [exact Hs |]. split; [exact Hr | exact Hm].
Defined.


(** The scan of [Report] returns items 101 and 103: the report has the
    two header lines and one line for each. *)
Lemma new_Report_lists_22_witness :
  (run sample.twoNew (new.Report ["etcd"]) sample.emptyWorld).1
  = Returned
      (strings.Join
         (new.reportHeader
          ++ [new.reportItem (sample.bug 101 "NEW" "");
              new.reportItem (sample.bug 103 "NEW" "")])
         (String (ascii_of_nat 10) ""),
       None).
Proof.
  rewrite (new_Report_lists_22 (H := sample.helpers) sample.twoNew ["etcd"]
             sample.emptyWorld
             [sample.bug 101 "NEW" ""; sample.bug 103 "NEW" ""] eq_refl).
  reflexivity.
Defined.

(** A click with the payload "garbage": the handler returns and nothing
    shows in the chat. *)
Lemma takeClicked_silent_iff_undecodable_witness :
  let task := new.takeClicked sample.reporter sample.notice sample.clicker
                sample.badClick in
  (run sample.quiet task sample.emptyWorld).1 = Returned tt
  /\ posts (callsOf sample.quiet task sample.emptyWorld) = []
  /\ messageChannels (callsOf sample.quiet task sample.emptyWorld) = []
  /\ edits (callsOf sample.quiet task sample.emptyWorld) = [].
Proof.
  intros task.
  assert (Hr : (run sample.quiet task sample.emptyWorld).1 = Returned tt)
    by reflexivity.
  split; [exact Hr |].
  pose proof (takeClicked_silent_iff_undecodable (H := sample.helpers)
                sample.quiet sample.reporter sample.notice sample.clicker
                sample.badClick sample.emptyWorld) as Hw.
  cbv zeta in Hw. apply (Hw Hr).
  exists "unexpected end of JSON input". reflexivity.
Defined.
